(** * The kinodynamic replanning state machine of Fast-Planner-ROS2

    A shallow embedding of [KinoReplanFSM]
    (plan_manage/src/kino_replan_fsm_node.cpp): the goal handler, the
    odometry handler, the periodic FSM tick and the periodic safety
    monitor, with the properties of the replanning policy proved about
    them.

    Conventions of the model.
    - A C++ [double] is an exact rational ([Q]); rounding, infinities and
      NaN are outside the model.  Two doubles are the same number when
      they are [Qeq]-equal.
    - An [int] is a [Z]; the tick counter stays within 0..99 on the
      states the node can reach (see [reachable_counter]).
    - Everything the node writes to the outside (console lines, published
      messages, drawing requests, calls into the planner) is recorded as
      a list of [Event]s, in program order.
    - Undefined behaviour of the C++ source (an index outside an array,
      a remainder by zero, a call through a null pointer) is an explicit
      [Crash].
    - The handlers are the code on a node whose collaborators are in
      place: the planner with its map, the visualisation and the
      publishers.  [init] of kino_replan_fsm_node.cpp leaves
      [visualization_] null; where a property depends on that pointer its
      state is explicit ([waypointCallback_on]). *)

From Stdlib Require Import QArith Qabs ZArith List String DecimalString.
From Stdlib Require Import Bool Lia Lqa.
Import ListNotations.

Local Open Scope Q_scope.

(** ** Doubles *)

Definition double := Q.

Module Dbl.

Definition ltb (a b : double) : bool :=
  match a ?= b with Lt => true | _ => false end.
Definition leb (a b : double) : bool := Qle_bool a b.
Definition gtb (a b : double) : bool := ltb b a.
Definition geb (a b : double) : bool := leb b a.

(** [std::min(a, b)] is [(b < a) ? b : a]. *)
Definition std_min (a b : double) : double := if ltb b a then b else a.

End Dbl.

(** ** Eigen values *)

Record Vector3d := mkVec { vx : double; vy : double; vz : double }.

Record Quaterniond := mkQuat { qw : double; qx : double; qy : double; qz : double }.

Definition VectorXd := list double.
Definition MatrixXd := list (list double).

Definition vzero : Vector3d := mkVec 0 0 0.

Definition vsub (a b : Vector3d) : Vector3d :=
  mkVec (vx a - vx b) (vy a - vy b) (vz a - vz b).

(** Coefficient [i] of a dynamic vector, and entry [(i, j)] of a dynamic
    matrix. *)
Definition coeff (v : VectorXd) (i : nat) : double := nth i v 0.
Definition entry (m : MatrixXd) (i j : nat) : double := nth j (nth i m []) 0.
Definition rows (m : MatrixXd) : nat := List.length m.

Definition vec3_of (v : VectorXd) : Vector3d :=
  mkVec (coeff v 0) (coeff v 1) (coeff v 2).

(** First column of [Quaterniond::toRotationMatrix()]. *)
Definition rotation_x_axis (q : Quaterniond) : Vector3d :=
  let ty := 2 * qy q in
  let tz := 2 * qz q in
  mkVec (1 - (ty * qy q + tz * qz q))
        (ty * qx q + tz * qw q)
        (tz * qx q - ty * qw q).

(** ** Messages *)

(** [rclcpp::Time] is a count of nanoseconds; [Duration::seconds()]
    converts a difference to a double. *)
Definition Time := Z.

Definition seconds (nanoseconds : Z) : double := (nanoseconds # 1) / 1000000000.

Record Pose := mkPose { position : Vector3d; orientation : Quaterniond }.
Record PoseStamped := mkPoseStamped { pose : Pose }.

(** [nav_msgs::msg::Path] *)
Record Path := mkPath { poses : list PoseStamped }.

(** [nav_msgs::msg::Odometry] *)
Record Odometry := mkOdometry { odom_pose : Pose; twist_linear : Vector3d }.

(** [plan_manage::Bspline] *)
Record BsplineMsg := mkBsplineMsg {
  order : Z;
  start_time : Time;
  traj_id : Z;
  pos_pts : list Vector3d;
  knots : list double;
  yaw_pts : list double;
  yaw_dt : double }.

(** ** The planning states *)

Inductive FSM_EXEC_STATE :=
  INIT | WAIT_TARGET | GEN_NEW_TRAJ | REPLAN_TRAJ | EXEC_TRAJ | REPLAN_NEW.

Definition int_of_state (s : FSM_EXEC_STATE) : nat :=
  match s with
  | INIT => 0 | WAIT_TARGET => 1 | GEN_NEW_TRAJ => 2
  | REPLAN_TRAJ => 3 | EXEC_TRAJ => 4 | REPLAN_NEW => 5
  end%nat.

Definition state_eqb (a b : FSM_EXEC_STATE) : bool :=
  Nat.eqb (int_of_state a) (int_of_state b).

(** [enum TARGET_TYPE] *)
Definition MANUAL_TARGET : Z := 1.
Definition PRESET_TARGET : Z := 2.
Definition REFENCE_PATH : Z := 3.

(** The local array [state_str[5]] of [changeFSMExecState] and
    [printFSMExecState]. *)
Definition state_str : list string :=
  ["INIT"; "WAIT_TARGET"; "GEN_NEW_TRAJ"; "REPLAN_TRAJ"; "EXEC_TRAJ"]%string.

(** ** What the node emits *)

Inductive Event :=
| Cout (line : string)
| Warn (line : string)
| PublishReplan
| PublishBspline (msg : BsplineMsg)
| DrawGoal (goal : Vector3d)
| DrawGeometricPath (path : list Vector3d)
| DrawBspline
| CallKinodynamicReplan
    (start_pt start_vel start_acc end_pt end_vel : Vector3d).

Definition is_replan_signal (e : Event) : bool :=
  match e with PublishReplan => true | _ => false end.

Definition replan_signals (evs : list Event) : nat :=
  List.length (filter is_replan_signal evs).

(** ** Undefined behaviour *)

Inductive Fault :=
| BadStateName      (* state_str[i] with 5 <= i *)
| EmptyPath         (* msg->poses[0] on an empty sequence *)
| BadWaypoint       (* waypoints_[i] with i outside 0..49 *)
| RemainderByZero   (* (current_wp_ + 1) % 0 *)
| NullPointer       (* visualization_->drawGoal(...) with visualization_ null *)
| UnsetGoal         (* end_pt_ = goal with goal never assigned *)
| LoopBudget.       (* a bounded loop of the model ran out of steps *)

Inductive Res (A : Type) :=
| Ok (a : A)
| Crash (f : Fault).
Arguments Ok {A} a.
Arguments Crash {A} f.

(** ** The collaborators

    The planner manager, its distance field, the B-spline curves and the
    numeric library routines are outside the node.  The node is modelled
    over any implementation of them. *)

(** Modelled from the spec: [LocalTrajData], the active trajectory owned
    by the planner manager (its declaration is in the plan_manage headers);
    the fields are the ones the node reads. *)
Record LocalTrajData (Curve : Type) := mkLocalTrajData {
  traj_id_ : Z;
  duration_ : double;
  start_time_ : Time;
  start_pos_ : Vector3d;
  position_traj_ : Curve;
  velocity_traj_ : Curve;
  acceleration_traj_ : Curve;
  yaw_traj_ : Curve;
  yawdot_traj_ : Curve;
  yawdotdot_traj_ : Curve }.
Arguments traj_id_ {Curve} _.
Arguments duration_ {Curve} _.
Arguments start_time_ {Curve} _.
Arguments start_pos_ {Curve} _.
Arguments position_traj_ {Curve} _.
Arguments velocity_traj_ {Curve} _.
Arguments acceleration_traj_ {Curve} _.
Arguments yaw_traj_ {Curve} _.
Arguments yawdot_traj_ {Curve} _.
Arguments yawdotdot_traj_ {Curve} _.

Class Collaborators := {
  (* <cmath> and Eigen *)
  cos : double -> double;
  sin : double -> double;
  atan2 : double -> double -> double;
  norm : Vector3d -> double;
  (* NonUniformBspline *)
  NonUniformBspline : Type;
  evaluateDeBoorT : NonUniformBspline -> double -> VectorXd;
  getControlPoint : NonUniformBspline -> MatrixXd;
  getKnot : NonUniformBspline -> VectorXd;
  getInterval : NonUniformBspline -> double;
  (* FastPlannerManager *)
  FastPlannerManager : Type;
  local_data_ : FastPlannerManager -> LocalTrajData NonUniformBspline;
  kino_path_ : FastPlannerManager -> list Vector3d;
  dynamic_ : FastPlannerManager -> bool;
  evaluateCoarseEDT : FastPlannerManager -> Vector3d -> double -> double;
  checkTrajCollision : FastPlannerManager -> bool * double;
  kinodynamicReplan :
    FastPlannerManager -> Vector3d -> Vector3d -> Vector3d -> Vector3d ->
    Vector3d -> bool * FastPlannerManager;
  planYaw : FastPlannerManager -> Vector3d -> FastPlannerManager }.

Section Node.
Context {ext : Collaborators}.

(** ** The node's fields *)

Record KinoReplanFSM := mkFSM {
  (* parameters *)
  target_type_ : Z;
  no_replan_thresh_ : double;
  replan_thresh_ : double;
  waypoints_ : Z -> Vector3d;     (* double waypoints_[50][3], by row *)
  waypoint_num_ : Z;
  (* planning data *)
  trigger_ : bool;
  have_target_ : bool;
  have_odom_ : bool;
  exec_state_ : FSM_EXEC_STATE;
  odom_pos_ : Vector3d;
  odom_vel_ : Vector3d;
  odom_orient_ : Quaterniond;
  start_pt_ : Vector3d;
  start_vel_ : Vector3d;
  start_acc_ : Vector3d;
  start_yaw_ : Vector3d;
  end_pt_ : Vector3d;
  end_vel_ : Vector3d;
  current_wp_ : Z;
  (* planning utils *)
  planner_manager_ : FastPlannerManager;
  (* static int fsm_num of execFSMCallback *)
  fsm_num : Z }.

Definition set_trigger_ (v : bool) (s : KinoReplanFSM) : KinoReplanFSM :=
  let '(mkFSM a b c d e _ g h i j k l m n o p q r t u w) := s in
  mkFSM a b c d e v g h i j k l m n o p q r t u w.
Definition set_have_target_ (v : bool) (s : KinoReplanFSM) : KinoReplanFSM :=
  let '(mkFSM a b c d e f _ h i j k l m n o p q r t u w) := s in
  mkFSM a b c d e f v h i j k l m n o p q r t u w.
Definition set_have_odom_ (v : bool) (s : KinoReplanFSM) : KinoReplanFSM :=
  let '(mkFSM a b c d e f g _ i j k l m n o p q r t u w) := s in
  mkFSM a b c d e f g v i j k l m n o p q r t u w.
Definition set_exec_state_ (v : FSM_EXEC_STATE) (s : KinoReplanFSM) : KinoReplanFSM :=
  let '(mkFSM a b c d e f g h _ j k l m n o p q r t u w) := s in
  mkFSM a b c d e f g h v j k l m n o p q r t u w.
Definition set_odom_pos_ (v : Vector3d) (s : KinoReplanFSM) : KinoReplanFSM :=
  let '(mkFSM a b c d e f g h i _ k l m n o p q r t u w) := s in
  mkFSM a b c d e f g h i v k l m n o p q r t u w.
Definition set_odom_vel_ (v : Vector3d) (s : KinoReplanFSM) : KinoReplanFSM :=
  let '(mkFSM a b c d e f g h i j _ l m n o p q r t u w) := s in
  mkFSM a b c d e f g h i j v l m n o p q r t u w.
Definition set_odom_orient_ (v : Quaterniond) (s : KinoReplanFSM) : KinoReplanFSM :=
  let '(mkFSM a b c d e f g h i j k _ m n o p q r t u w) := s in
  mkFSM a b c d e f g h i j k v m n o p q r t u w.
Definition set_start_pt_ (v : Vector3d) (s : KinoReplanFSM) : KinoReplanFSM :=
  let '(mkFSM a b c d e f g h i j k l _ n o p q r t u w) := s in
  mkFSM a b c d e f g h i j k l v n o p q r t u w.
Definition set_start_vel_ (v : Vector3d) (s : KinoReplanFSM) : KinoReplanFSM :=
  let '(mkFSM a b c d e f g h i j k l m _ o p q r t u w) := s in
  mkFSM a b c d e f g h i j k l m v o p q r t u w.
Definition set_start_acc_ (v : Vector3d) (s : KinoReplanFSM) : KinoReplanFSM :=
  let '(mkFSM a b c d e f g h i j k l m n _ p q r t u w) := s in
  mkFSM a b c d e f g h i j k l m n v p q r t u w.
Definition set_start_yaw_ (v : Vector3d) (s : KinoReplanFSM) : KinoReplanFSM :=
  let '(mkFSM a b c d e f g h i j k l m n o _ q r t u w) := s in
  mkFSM a b c d e f g h i j k l m n o v q r t u w.
Definition set_end_pt_ (v : Vector3d) (s : KinoReplanFSM) : KinoReplanFSM :=
  let '(mkFSM a b c d e f g h i j k l m n o p _ r t u w) := s in
  mkFSM a b c d e f g h i j k l m n o p v r t u w.
Definition set_end_vel_ (v : Vector3d) (s : KinoReplanFSM) : KinoReplanFSM :=
  let '(mkFSM a b c d e f g h i j k l m n o p q _ t u w) := s in
  mkFSM a b c d e f g h i j k l m n o p q v t u w.
Definition set_current_wp_ (v : Z) (s : KinoReplanFSM) : KinoReplanFSM :=
  let '(mkFSM a b c d e f g h i j k l m n o p q r _ u w) := s in
  mkFSM a b c d e f g h i j k l m n o p q r v u w.
Definition set_planner_manager_ (v : FastPlannerManager) (s : KinoReplanFSM) : KinoReplanFSM :=
  let '(mkFSM a b c d e f g h i j k l m n o p q r t _ w) := s in
  mkFSM a b c d e f g h i j k l m n o p q r t v w.
Definition set_fsm_num (v : Z) (s : KinoReplanFSM) : KinoReplanFSM :=
  let '(mkFSM a b c d e f g h i j k l m n o p q r t u _) := s in
  mkFSM a b c d e f g h i j k l m n o p q r t u v.

(** ** Handlers as state transformers

    A handler runs on the node's fields and either crashes or returns a
    value, the new fields and the events it emitted. *)

Definition M (A : Type) : Type :=
  KinoReplanFSM -> Res (A * KinoReplanFSM * list Event).

Definition ret {A} (a : A) : M A := fun s => Ok (a, s, []).

Definition bind {A B} (m : M A) (k : A -> M B) : M B :=
  fun s =>
    match m s with
    | Crash f => Crash f
    | Ok (a, s1, e1) =>
        match k a s1 with
        | Crash f => Crash f
        | Ok (b, s2, e2) => Ok (b, s2, e1 ++ e2)
        end
    end.

Definition read {A} (field : KinoReplanFSM -> A) : M A :=
  fun s => Ok (field s, s, []).

Definition write (update : KinoReplanFSM -> KinoReplanFSM) : M unit :=
  fun s => Ok (tt, update s, []).

Definition emit (e : Event) : M unit := fun s => Ok (tt, s, [e]).

Definition crash {A} (f : Fault) : M A := fun _ => Crash f.

Definition when (c : bool) (m : M unit) : M unit := if c then m else ret tt.

Notation "x <- m ;; k" := (bind m (fun x => k))
  (at level 61, m at next level, right associativity).
Notation "m ;; k" := (bind m (fun _ => k))
  (at level 61, right associativity).

Local Open Scope string_scope.

(** ** [changeFSMExecState] and [printFSMExecState] *)

(** [state_str[i]] *)
Definition state_name (i : nat) : M string :=
  match nth_error state_str i with
  | Some name => ret name
  | None => crash BadStateName
  end.

Definition changeFSMExecState (new_state : FSM_EXEC_STATE) (pos_call : string)
  : M unit :=
  pre_s <- read (fun s => int_of_state (exec_state_ s)) ;;
  write (set_exec_state_ new_state) ;;
  from <- state_name pre_s ;;
  to <- state_name (int_of_state new_state) ;;
  emit (Cout ("[" ++ pos_call ++ "]: from " ++ from ++ " to " ++ to)).

Definition printFSMExecState : M unit :=
  cur <- read (fun s => int_of_state (exec_state_ s)) ;;
  name <- state_name cur ;;
  emit (Cout ("[FSM]: state: " ++ name)).

(** ** [waypointCallback] *)

Definition waypointCallback (msg : Path) : M unit :=
  match poses msg with
  | [] => crash EmptyPath
  | first :: _ =>
      let p := position (pose first) in
      if Dbl.ltb (vz p) (-0.1) then ret tt
      else
        emit (Cout "Triggered!") ;;
        write (set_trigger_ true) ;;
        target_type <- read target_type_ ;;
        (if (target_type =? MANUAL_TARGET)%Z then
           write (set_end_pt_ (mkVec (vx p) (vy p) 1.0))
         else if (target_type =? PRESET_TARGET)%Z then
           wp <- read current_wp_ ;;
           if ((0 <=? wp) && (wp <? 50))%Z then
             row <- read (fun s => waypoints_ s wp) ;;
             write (set_end_pt_ (mkVec (vx row) (vy row) (vz row))) ;;
             num <- read waypoint_num_ ;;
             if (num =? 0)%Z then crash RemainderByZero
             else write (set_current_wp_ (Z.rem (wp + 1) num))
           else crash BadWaypoint
         else ret tt) ;;
        goal <- read end_pt_ ;;
        emit (DrawGoal goal) ;;
        write (set_end_vel_ vzero) ;;
        write (set_have_target_ true) ;;
        state <- read exec_state_ ;;
        if state_eqb state WAIT_TARGET then changeFSMExecState GEN_NEW_TRAJ "TRIG"
        else if state_eqb state EXEC_TRAJ then changeFSMExecState REPLAN_TRAJ "TRIG"
        else ret tt
  end.

(** ** [odometryCallback] *)

Definition odometryCallback (msg : Odometry) : M unit :=
  write (set_odom_pos_ (position (odom_pose msg))) ;;
  write (set_odom_vel_ (twist_linear msg)) ;;
  write (set_odom_orient_ (orientation (odom_pose msg))) ;;
  write (set_have_odom_ true).

(** ** [callKinodynamicReplan] *)

Definition bspline_of (info : LocalTrajData NonUniformBspline) : BsplineMsg :=
  let pos_ctrl := getControlPoint (position_traj_ info) in
  let knot := getKnot (position_traj_ info) in
  let yaw_ctrl := getControlPoint (yaw_traj_ info) in
  {| order := 3;
     start_time := start_time_ info;
     traj_id := traj_id_ info;
     pos_pts := map (fun i => mkVec (entry pos_ctrl i 0) (entry pos_ctrl i 1)
                                    (entry pos_ctrl i 2))
                    (seq 0 (rows pos_ctrl));
     knots := map (coeff knot) (seq 0 (List.length knot));
     yaw_pts := map (fun i => entry yaw_ctrl i 0) (seq 0 (rows yaw_ctrl));
     yaw_dt := getInterval (yaw_traj_ info) |}.

Definition callKinodynamicReplan : M bool :=
  pm <- read planner_manager_ ;;
  sp <- read start_pt_ ;;
  sv <- read start_vel_ ;;
  sa <- read start_acc_ ;;
  ep <- read end_pt_ ;;
  ev <- read end_vel_ ;;
  emit (CallKinodynamicReplan sp sv sa ep ev) ;;
  let (plan_success, pm1) := kinodynamicReplan pm sp sv sa ep ev in
  write (set_planner_manager_ pm1) ;;
  if plan_success then
    yaw <- read start_yaw_ ;;
    let pm2 := planYaw pm1 yaw in
    write (set_planner_manager_ pm2) ;;
    emit (PublishBspline (bspline_of (local_data_ pm2))) ;;
    emit (DrawGeometricPath (kino_path_ pm2)) ;;
    emit DrawBspline ;;
    ret true
  else
    emit (Cout "generate new traj fail.") ;;
    ret false.

(** ** [execFSMCallback] *)

(** [(curr_time - info->start_time_).seconds()] *)
Definition elapsed (now : Time) (info : LocalTrajData NonUniformBspline)
  : double :=
  seconds (now - start_time_ info).

(** The [t_cur] of [case EXEC_TRAJ] after [std::min]. *)
Definition exec_traj_t_cur (now : Time) (info : LocalTrajData NonUniformBspline)
  : double :=
  Dbl.std_min (duration_ info) (elapsed now info).

(** The [t_cur] of [case REPLAN_TRAJ]. *)
Definition replan_traj_t_cur (now : Time)
  (info : LocalTrajData NonUniformBspline) : double :=
  elapsed now info.

Definition execFSMCallback (now : Time) : M unit :=
  n <- read fsm_num ;;
  write (set_fsm_num (n + 1)) ;;
  when (n + 1 =? 100)%Z
    (printFSMExecState ;;
     have_odom <- read have_odom_ ;;
     when (negb have_odom) (emit (Cout "no odom.")) ;;
     trigger <- read trigger_ ;;
     when (negb trigger) (emit (Cout "wait for goal.")) ;;
     write (set_fsm_num 0)) ;;
  state <- read exec_state_ ;;
  match state with
  | INIT =>
      have_odom <- read have_odom_ ;;
      if negb have_odom then ret tt
      else
        trigger <- read trigger_ ;;
        if negb trigger then ret tt
        else changeFSMExecState WAIT_TARGET "FSM"
  | WAIT_TARGET =>
      have_target <- read have_target_ ;;
      if negb have_target then ret tt
      else changeFSMExecState GEN_NEW_TRAJ "FSM"
  | GEN_NEW_TRAJ =>
      odom_pos <- read odom_pos_ ;;
      write (set_start_pt_ odom_pos) ;;
      odom_vel <- read odom_vel_ ;;
      write (set_start_vel_ odom_vel) ;;
      write (set_start_acc_ vzero) ;;
      orient <- read odom_orient_ ;;
      let rot_x := rotation_x_axis orient in
      write (set_start_yaw_ (mkVec (atan2 (vy rot_x) (vx rot_x)) 0 0)) ;;
      success <- callKinodynamicReplan ;;
      if success then changeFSMExecState EXEC_TRAJ "FSM"
      else changeFSMExecState GEN_NEW_TRAJ "FSM"
  | EXEC_TRAJ =>
      info <- read (fun s => local_data_ (planner_manager_ s)) ;;
      let t_cur := exec_traj_t_cur now info in
      let pos := vec3_of (evaluateDeBoorT (position_traj_ info) t_cur) in
      if Dbl.gtb t_cur (duration_ info - 0.01) then
        write (set_have_target_ false) ;;
        changeFSMExecState WAIT_TARGET "FSM"
      else
        end_pt <- read end_pt_ ;;
        no_replan_thresh <- read no_replan_thresh_ ;;
        if Dbl.ltb (norm (vsub end_pt pos)) no_replan_thresh then ret tt
        else
          replan_thresh <- read replan_thresh_ ;;
          if Dbl.ltb (norm (vsub (start_pos_ info) pos)) replan_thresh
          then ret tt
          else changeFSMExecState REPLAN_TRAJ "FSM"
  | REPLAN_TRAJ =>
      info <- read (fun s => local_data_ (planner_manager_ s)) ;;
      let t_cur := replan_traj_t_cur now info in
      write (set_start_pt_ (vec3_of (evaluateDeBoorT (position_traj_ info) t_cur))) ;;
      write (set_start_vel_ (vec3_of (evaluateDeBoorT (velocity_traj_ info) t_cur))) ;;
      write (set_start_acc_
               (vec3_of (evaluateDeBoorT (acceleration_traj_ info) t_cur))) ;;
      write (set_start_yaw_
               (mkVec (coeff (evaluateDeBoorT (yaw_traj_ info) t_cur) 0)
                      (coeff (evaluateDeBoorT (yawdot_traj_ info) t_cur) 0)
                      (coeff (evaluateDeBoorT (yawdotdot_traj_ info) t_cur) 0))) ;;
      emit PublishReplan ;;
      success <- callKinodynamicReplan ;;
      if success then changeFSMExecState EXEC_TRAJ "FSM"
      else changeFSMExecState GEN_NEW_TRAJ "FSM"
  | REPLAN_NEW => ret tt
  end.

(** ** [checkCollisionCallback] *)

(** A [for (double x = ...; cond(x); x = next(x)) body] loop over local
    state [St].  The model bounds the number of iterations; [None] means
    the bound was hit. *)
Fixpoint for_loop {St : Type} (budget : nat) (cond : double -> bool)
  (next : double -> double) (body : double -> St -> option St)
  (x : double) (s : St) : option St :=
  match budget with
  | O => None
  | S budget' =>
      if cond x then
        match body x s with
        | Some s' => for_loop budget' cond next body (next x) s'
        | None => None
        end
      else Some s
  end.

Definition loop_budget : nat := 64.

Definition dr : double := 0.5.
Definition dtheta : double := 30.
Definition dz : double := 0.3.

(** The locals [goal] and [max_dist] of the search; [goal] is declared
    without a value. *)
Definition Best : Type := option Vector3d * double.

Definition candidate (end_pt : Vector3d) (r theta nz : double) : Vector3d :=
  let new_x := vx end_pt + r * cos (theta / 57.3) in
  let new_y := vy end_pt + r * sin (theta / 57.3) in
  let new_z := vz end_pt + nz in
  mkVec new_x new_y new_z.

(** The body of the innermost loop: query the clearance of the candidate
    and keep it when it is strictly better. *)
Definition track (clearance : Vector3d -> double) (new_pt : Vector3d)
  (best : Best) : Best :=
  let dist := clearance new_pt in
  if Dbl.gtb dist (snd best) then (Some new_pt, dist) else best.

(** The three nested loops of the goal relocation search. *)
Definition relocation_search (clearance : Vector3d -> double)
  (end_pt : Vector3d) : option Best :=
  for_loop loop_budget (fun r => Dbl.leb r (5 * dr + 0.001)) (fun r => r + dr)
    (fun r =>
       for_loop loop_budget (fun theta => Dbl.leb theta 270)
         (fun theta => theta + dtheta)
         (fun theta =>
            for_loop loop_budget (fun nz => Dbl.geb nz (-1 * dz))
              (fun nz => nz - dz)
              (fun nz best =>
                 Some (track clearance (candidate end_pt r theta nz) best))
              (1 * dz))
         (-90))
    dr (None, -1.0).

(** [pp_.dynamic_ ? evaluateCoarseEDT(pt, duration_) : evaluateCoarseEDT(pt, -1.0)] *)
Definition clearance_query (pm : FastPlannerManager) (pt : Vector3d) : double :=
  if dynamic_ pm then evaluateCoarseEDT pm pt (duration_ (local_data_ pm))
  else evaluateCoarseEDT pm pt (-1.0).

Definition checkCollisionCallback : M unit :=
  pm <- read planner_manager_ ;;
  have_target <- read have_target_ ;;
  when have_target
    (end_pt <- read end_pt_ ;;
     let dist := clearance_query pm end_pt in
     when (Dbl.leb dist 0.3)
       match relocation_search (clearance_query pm) end_pt with
       | None => crash LoopBudget
       | Some (goal, max_dist) =>
           if Dbl.gtb max_dist 0.3 then
             emit (Cout "change goal, replan.") ;;
             match goal with
             | Some g => write (set_end_pt_ g)
             | None => crash UnsetGoal
             end ;;
             write (set_have_target_ true) ;;
             write (set_end_vel_ vzero) ;;
             state <- read exec_state_ ;;
             when (state_eqb state EXEC_TRAJ)
               (changeFSMExecState REPLAN_TRAJ "SAFETY") ;;
             new_goal <- read end_pt_ ;;
             emit (DrawGoal new_goal)
           else
             emit (Cout "goal near collision, keep retry") ;;
             changeFSMExecState REPLAN_TRAJ "FSM" ;;
             emit PublishReplan
       end) ;;
  (* check trajectory *)
  state <- read exec_state_ ;;
  when (state_eqb state EXEC_TRAJ)
    (pm <- read planner_manager_ ;;
     let (safe, _) := checkTrajCollision pm in
     when (negb safe)
       (emit (Warn "current traj in collision.") ;;
        changeFSMExecState REPLAN_TRAJ "SAFETY")).

(** ** The node's life

    The constructor leaves the node in [INIT] with its flags cleared; the
    parameters and the planner are whatever was configured. *)
Definition constructed (s : KinoReplanFSM) : Prop :=
  exec_state_ s = INIT /\ trigger_ s = false /\ have_target_ s = false /\
  have_odom_ s = false /\ current_wp_ s = 0%Z /\ fsm_num s = 0%Z.

(** One activity of the node running to completion: a tick of either
    timer, a message on either topic, or the planner's own data (map,
    active trajectory) moving on between two activities. *)
Inductive step : KinoReplanFSM -> list Event -> KinoReplanFSM -> Prop :=
| step_exec now s s' evs :
    execFSMCallback now s = Ok (tt, s', evs) -> step s evs s'
| step_safety s s' evs :
    checkCollisionCallback s = Ok (tt, s', evs) -> step s evs s'
| step_waypoint msg s s' evs :
    waypointCallback msg s = Ok (tt, s', evs) -> step s evs s'
| step_odometry msg s s' evs :
    odometryCallback msg s = Ok (tt, s', evs) -> step s evs s'
| step_planner pm s :
    step s [] (set_planner_manager_ pm s).

Inductive reachable : KinoReplanFSM -> Prop :=
| reachable_start s : constructed s -> reachable s
| reachable_step s evs s' : reachable s -> step s evs s' -> reachable s'.

(** A planner failure shows on the console; a run of retries is any
    number of ticks whose planner call failed, with odometry messages and
    planner-side changes in between. *)
Definition replan_failed (evs : list Event) : Prop :=
  In (Cout "generate new traj fail.") evs.

Inductive retries : KinoReplanFSM -> KinoReplanFSM -> Prop :=
| retries_done s : retries s s
| retries_tick now s s1 evs s' :
    execFSMCallback now s = Ok (tt, s1, evs) -> replan_failed evs ->
    retries s1 s' -> retries s s'
| retries_odometry msg s s1 evs s' :
    odometryCallback msg s = Ok (tt, s1, evs) ->
    retries s1 s' -> retries s s'
| retries_planner pm s s' :
    retries (set_planner_manager_ pm s) s' -> retries s s'.

(** ** The grid of the relocation search *)

(** The values a loop variable takes: the control part of [for_loop]. *)
Fixpoint for_values (budget : nat) (cond : double -> bool)
  (next : double -> double) (x : double) : option (list double) :=
  match budget with
  | O => None
  | S budget' =>
      if cond x then
        match for_values budget' cond next (next x) with
        | Some vs => Some (x :: vs)
        | None => None
        end
      else Some []
  end.

(** [x; next x; next (next x); ...], [n] values. *)
Fixpoint iterates (n : nat) (next : double -> double) (x : double)
  : list double :=
  match n with
  | O => []
  | S n' => x :: iterates n' next (next x)
  end.

Definition visited_radii : list double := iterates 5 (fun r => r + dr) dr.
Definition visited_azimuths : list double :=
  iterates 13 (fun theta => theta + dtheta) (-90).
Definition visited_offsets : list double :=
  iterates 3 (fun nz => nz - dz) (1 * dz).

Definition Offset : Type := double * double * double.

Definition grid_of (radii azimuths offsets : list double) : list Offset :=
  flat_map (fun r =>
    flat_map (fun theta => map (fun nz => (r, theta, nz)) offsets) azimuths)
    radii.

(** The offsets in the order the loops visit them. *)
Definition visited_grid : list Offset :=
  grid_of visited_radii visited_azimuths visited_offsets.

Definition candidate_at (end_pt : Vector3d) (o : Offset) : Vector3d :=
  let '(r, theta, nz) := o in candidate end_pt r theta nz.

Definition candidates (end_pt : Vector3d) : list Vector3d :=
  map (candidate_at end_pt) visited_grid.

(** The grid as the specification words it: radii [0.5 * k] for
    [k = 1..5], azimuths from -90 to 270 degrees in steps of 30, vertical
    offsets +0.3, 0 and -0.3. *)
Definition spec_radii : list double :=
  map (fun k => 0.5 * inject_Z k) [1; 2; 3; 4; 5]%Z.
Definition spec_azimuths : list double :=
  map (fun j => -90 + 30 * inject_Z j) [0; 1; 2; 3; 4; 5; 6; 7; 8; 9; 10; 11; 12]%Z.
Definition spec_offsets : list double := [0.3; 0; -0.3].
Definition spec_grid : list Offset :=
  grid_of spec_radii spec_azimuths spec_offsets.

(** Two offsets that are the same three numbers. *)
Definition same_offset (a b : Offset) : Prop :=
  let '(r1, t1, z1) := a in
  let '(r2, t2, z2) := b in
  r1 == r2 /\ t1 == t2 /\ z1 == z2.

(** A tracked maximum over a list of points. *)
Definition best_of (clearance : Vector3d -> double) (pts : list Vector3d)
  : Best :=
  fold_left (fun best pt => track clearance pt best) pts (None, -1.0).


(** The planning state is one of the five that have a name. *)
Definition named (s : KinoReplanFSM) : Prop := exec_state_ s <> REPLAN_NEW.

(** The events of a handler up to its call into the planner. *)
Fixpoint until_call (evs : list Event) : list Event :=
  match evs with
  | [] => []
  | CallKinodynamicReplan _ _ _ _ _ :: _ => []
  | e :: rest => e :: until_call rest
  end.


(** ** The constructor and [init] *)

Definition set_target_type_ (v : Z) (s : KinoReplanFSM) : KinoReplanFSM :=
  let '(mkFSM _ b c d e f g h i j k l m n o p q r t u w) := s in
  mkFSM v b c d e f g h i j k l m n o p q r t u w.
Definition set_no_replan_thresh_ (v : double) (s : KinoReplanFSM) : KinoReplanFSM :=
  let '(mkFSM a _ c d e f g h i j k l m n o p q r t u w) := s in
  mkFSM a v c d e f g h i j k l m n o p q r t u w.
Definition set_replan_thresh_ (v : double) (s : KinoReplanFSM) : KinoReplanFSM :=
  let '(mkFSM a b _ d e f g h i j k l m n o p q r t u w) := s in
  mkFSM a b v d e f g h i j k l m n o p q r t u w.
Definition set_waypoints_ (v : Z -> Vector3d) (s : KinoReplanFSM) : KinoReplanFSM :=
  let '(mkFSM a b c _ e f g h i j k l m n o p q r t u w) := s in
  mkFSM a b c v e f g h i j k l m n o p q r t u w.
Definition set_waypoint_num_ (v : Z) (s : KinoReplanFSM) : KinoReplanFSM :=
  let '(mkFSM a b c d _ f g h i j k l m n o p q r t u w) := s in
  mkFSM a b c d v f g h i j k l m n o p q r t u w.

(** The parameter overrides the node is started with, by name and type.
    [declare_parameter(name, default)] followed by
    [get_parameter(name, var)] leaves the override in [var] when there is
    one, and the default otherwise. *)
Record Parameters := mkParameters {
  int_override : string -> option Z;
  double_override : string -> option double }.

Definition int_parameter (ps : Parameters) (name : string) (default : Z) : Z :=
  match int_override ps name with
  | Some v => v
  | None => default
  end.

Definition double_parameter (ps : Parameters) (name : string)
  (default : double) : double :=
  match double_override ps name with
  | Some v => v
  | None => default
  end.

(** [std::to_string(i)] *)
Definition to_string (i : Z) : string := NilZero.string_of_int (Z.to_int i).

(** ["fsm.waypoint" + std::to_string(i) + axis] *)
Definition waypoint_key (i : Z) (axis : string) : string :=
  "fsm.waypoint" ++ to_string i ++ axis.

(** A [for (int i = first; i < bound; i++) body] loop. *)
Fixpoint int_for (budget : nat) (i bound : Z) (body : Z -> M unit) : M unit :=
  match budget with
  | O => crash LoopBudget
  | S budget' =>
      if (i <? bound)%Z then body i ;; int_for budget' (i + 1)%Z bound body
      else ret tt
  end.

(** The body of the waypoint loop of [init]: the three coordinates of
    [waypoints_[i]]. *)
Definition load_waypoint (ps : Parameters) (i : Z) : M unit :=
  if ((0 <=? i) && (i <? 50))%Z then
    write (fun s =>
      set_waypoints_ (fun j =>
        if (j =? i)%Z then
          mkVec (double_parameter ps (waypoint_key i "_x") (-1.0))
                (double_parameter ps (waypoint_key i "_y") (-1.0))
                (double_parameter ps (waypoint_key i "_z") (-1.0))
        else waypoints_ s j) s)
  else crash BadWaypoint.

(** [init()], as far as the node's fields go: the timers, subscriptions
    and publisher it creates do not touch them.  [fresh] is the planner
    manager [new FastPlannerManager] returns. *)
Definition init (ps : Parameters) (fresh : FastPlannerManager) : M unit :=
  write (set_current_wp_ 0%Z) ;;
  write (set_exec_state_ INIT) ;;
  write (set_have_target_ false) ;;
  write (set_have_odom_ false) ;;
  write (set_target_type_ (int_parameter ps "fsm.flight_type" (-1)%Z)) ;;
  write (set_replan_thresh_ (double_parameter ps "fsm.thresh_replan" (-1.0))) ;;
  write (set_no_replan_thresh_
           (double_parameter ps "fsm.thresh_no_replan" (-1.0))) ;;
  write (set_waypoint_num_ (int_parameter ps "fsm.waypoint_num" (-1)%Z)) ;;
  num <- read waypoint_num_ ;;
  int_for (S (Z.to_nat num)) 0%Z num (load_waypoint ps) ;;
  write (set_planner_manager_ fresh).

(** The constructor: the member initialisers, then [init()].  It runs on
    whatever the node's storage held.  The tick counter is a static of
    [execFSMCallback]: the constructor does not touch it. *)
Definition construct (ps : Parameters) (fresh : FastPlannerManager) : M unit :=
  write (set_trigger_ false) ;;
  write (set_have_target_ false) ;;
  write (set_have_odom_ false) ;;
  write (set_exec_state_ INIT) ;;
  write (set_current_wp_ 0%Z) ;;
  init ps fresh.

(** ** Runs and counts *)



(** The preset cycle is in order: preset mode, between 1 and 50
    waypoints, and the index below the count. *)
Definition cycle_configured (s : KinoReplanFSM) : Prop :=
  target_type_ s = PRESET_TARGET /\
  (0 < waypoint_num_ s <= 50)%Z /\
  (0 <= current_wp_ s < waypoint_num_ s)%Z.

Definition is_planner_call (e : Event) : bool :=
  match e with CallKinodynamicReplan _ _ _ _ _ => true | _ => false end.

Definition planner_calls (evs : list Event) : nat :=
  List.length (filter is_planner_call evs).

Definition is_trajectory (e : Event) : bool :=
  match e with PublishBspline _ => true | _ => false end.

Definition published_trajectories (evs : list Event) : nat :=
  List.length (filter is_trajectory evs).

(** Ticks run one after the other. *)
Fixpoint run_ticks (nows : list Time) : M unit :=
  match nows with
  | [] => ret tt
  | now :: rest => execFSMCallback now ;; run_ticks rest
  end.

(** ** The visualisation pointer

    [visualization_] is a shared pointer of the node.  [init] of
    kino_replan_fsm_node.cpp leaves it null: the line that would set it
    is commented out (line 163).  [init] of the variant with the map
    callbacks sets it (part_000, line 333).  [waypointCallback] above is
    the handler on a node whose pointer is set; [waypointCallback_on] is
    the handler with the state of the pointer explicit, [true] for set
    and [false] for null. *)
Definition waypointCallback_on (visualization_ : bool) (msg : Path)
  : M unit :=
  match poses msg with
  | [] => crash EmptyPath
  | first :: _ =>
      let p := position (pose first) in
      if Dbl.ltb (vz p) (-0.1) then ret tt
      else
        emit (Cout "Triggered!") ;;
        write (set_trigger_ true) ;;
        target_type <- read target_type_ ;;
        (if (target_type =? MANUAL_TARGET)%Z then
           write (set_end_pt_ (mkVec (vx p) (vy p) 1.0))
         else if (target_type =? PRESET_TARGET)%Z then
           wp <- read current_wp_ ;;
           if ((0 <=? wp) && (wp <? 50))%Z then
             row <- read (fun s => waypoints_ s wp) ;;
             write (set_end_pt_ (mkVec (vx row) (vy row) (vz row))) ;;
             num <- read waypoint_num_ ;;
             if (num =? 0)%Z then crash RemainderByZero
             else write (set_current_wp_ (Z.rem (wp + 1) num))
           else crash BadWaypoint
         else ret tt) ;;
        goal <- read end_pt_ ;;
        (if visualization_ then emit (DrawGoal goal)
         else crash NullPointer) ;;
        write (set_end_vel_ vzero) ;;
        write (set_have_target_ true) ;;
        state <- read exec_state_ ;;
        if state_eqb state WAIT_TARGET then changeFSMExecState GEN_NEW_TRAJ "TRIG"
        else if state_eqb state EXEC_TRAJ then changeFSMExecState REPLAN_TRAJ "TRIG"
        else ret tt
  end.

(** An odometry message, a goal message, then ticks. *)
Definition first_flight (visualization_ : bool) (odom : Odometry)
  (goal : Path) (nows : list Time) : M unit :=
  odometryCallback odom ;; waypointCallback_on visualization_ goal ;;
  run_ticks nows.

(** The console lines of [printFSMExecState]. *)
Definition is_status_line (e : Event) : bool :=
  match e with
  | Cout line => prefix "[FSM]: state: " line
  | _ => false
  end.

Definition status_lines (evs : list Event) : nat :=
  List.length (filter is_status_line evs).

(** The state changes a tick can make, read off the [switch] of
    [execFSMCallback]. *)
Definition tick_edges : list (FSM_EXEC_STATE * FSM_EXEC_STATE) :=
  [(INIT, WAIT_TARGET); (WAIT_TARGET, GEN_NEW_TRAJ);
   (GEN_NEW_TRAJ, EXEC_TRAJ); (GEN_NEW_TRAJ, GEN_NEW_TRAJ);
   (EXEC_TRAJ, WAIT_TARGET); (EXEC_TRAJ, REPLAN_TRAJ);
   (REPLAN_TRAJ, EXEC_TRAJ); (REPLAN_TRAJ, GEN_NEW_TRAJ)].

(** The parameters of two nodes are the same. *)
Definition same_parameters (s s' : KinoReplanFSM) : Prop :=
  target_type_ s' = target_type_ s /\
  no_replan_thresh_ s' = no_replan_thresh_ s /\
  replan_thresh_ s' = replan_thresh_ s /\
  waypoints_ s' = waypoints_ s /\
  waypoint_num_ s' = waypoint_num_ s.

End Node.

(** ** A scripted set of collaborators, for concrete runs

    The planner answers from a script; a curve evaluated at [t] returns
    [(t, t, t)], so the time it was sampled at can be read off the result;
    lengths are taxicab lengths and the trigonometric routines are
    constant, which keeps every value rational. *)

Record Script := mkScript {
  script_info : LocalTrajData unit;
  script_dynamic : bool;
  script_clearance : Vector3d -> double -> double;
  script_safe : bool;
  script_success : bool }.

Definition scripted : Collaborators := {|
  cos := fun _ => 1;
  sin := fun _ => 0;
  atan2 := fun _ _ => 0;
  norm := fun v => Qabs (vx v) + Qabs (vy v) + Qabs (vz v);
  NonUniformBspline := unit;
  evaluateDeBoorT := fun _ t => [t; t; t];
  getControlPoint := fun _ => [];
  getKnot := fun _ => [];
  getInterval := fun _ => 0;
  FastPlannerManager := Script;
  local_data_ := script_info;
  kino_path_ := fun _ => [];
  dynamic_ := script_dynamic;
  evaluateCoarseEDT := script_clearance;
  checkTrajCollision := fun pm => (script_safe pm, 0);
  kinodynamicReplan := fun pm _ _ _ _ _ => (script_success pm, pm);
  planYaw := fun pm _ => pm |}.

(** A two-second trajectory that starts one second after the clock's
    origin. *)
Definition demo_info : LocalTrajData unit :=
  mkLocalTrajData unit 0%Z 2 1000000000%Z vzero tt tt tt tt tt tt.

(** A distance field that is 0.1 at the origin and grows with height. *)
Definition demo_clearance (pt : Vector3d) (_ : double) : double :=
  0.1 + vz pt.

Definition demo_script (success : bool) : Script :=
  mkScript demo_info false demo_clearance true success.

Definition demo_node (state : FSM_EXEC_STATE) (have_target success : bool)
  : @KinoReplanFSM scripted :=
  @mkFSM scripted MANUAL_TARGET 1 1 (fun _ => vzero) 0%Z
    true have_target true state
    vzero vzero (mkQuat 1 0 0 0)
    vzero vzero vzero vzero
    vzero vzero 0%Z
    (demo_script success) 0%Z.

(** The node as its constructor leaves it. *)
Definition demo_fresh : @KinoReplanFSM scripted :=
  @mkFSM scripted MANUAL_TARGET 1 1 (fun _ => vzero) 0%Z
    false false false INIT
    vzero vzero (mkQuat 1 0 0 0)
    vzero vzero vzero vzero
    vzero vzero 0%Z
    (demo_script true) 0%Z.

Definition demo_goal (z : double) : Path :=
  mkPath [mkPoseStamped (mkPose (mkVec 4 5 z) (mkQuat 1 0 0 0))].

(** A distance field that is 0.1 everywhere: no candidate is clear. *)
Definition demo_blocked (state : FSM_EXEC_STATE) : @KinoReplanFSM scripted :=
  @mkFSM scripted MANUAL_TARGET 1 1 (fun _ => vzero) 0%Z
    true true false state
    vzero vzero (mkQuat 1 0 0 0)
    vzero vzero vzero vzero
    vzero vzero 0%Z
    (mkScript demo_info false (fun _ _ => 0.1) true true) 0%Z.

(** A node in preset mode with three waypoints, the index on the last. *)
Definition demo_preset : @KinoReplanFSM scripted :=
  @mkFSM scripted PRESET_TARGET 1 1
    (fun i => mkVec (inject_Z i) (2 * inject_Z i) 1) 3%Z
    true true true WAIT_TARGET
    vzero vzero (mkQuat 1 0 0 0)
    vzero vzero vzero vzero
    vzero vzero 2%Z
    (demo_script true) 0%Z.


(** Parameters that override the flight type and the waypoint count
    only. *)
Definition demo_parameters : Parameters :=
  mkParameters
    (fun name =>
       if String.eqb name "fsm.flight_type" then Some 2%Z
       else if String.eqb name "fsm.waypoint_num" then Some 2%Z
       else None)
    (fun _ => None).

Definition demo_odometry : Odometry :=
  mkOdometry (mkPose (mkVec 1 2 3) (mkQuat 1 0 0 0)) (mkVec 0 0 1).

(** Collaborators whose curves are their control-point tables, and a
    trajectory whose position curve has two control points. *)
Definition tabled : Collaborators := {|
  cos := fun _ => 1;
  sin := fun _ => 0;
  atan2 := fun _ _ => 0;
  norm := fun v => Qabs (vx v) + Qabs (vy v) + Qabs (vz v);
  NonUniformBspline := MatrixXd;
  evaluateDeBoorT := fun _ t => [t; t; t];
  getControlPoint := fun curve => curve;
  getKnot := fun curve => map (fun row => nth 0 row 0) curve;
  getInterval := fun _ => 0.5;
  FastPlannerManager := LocalTrajData MatrixXd;
  local_data_ := fun pm => pm;
  kino_path_ := fun _ => [];
  dynamic_ := fun _ => false;
  evaluateCoarseEDT := fun _ _ _ => 1;
  checkTrajCollision := fun _ => (true, 0);
  kinodynamicReplan := fun pm _ _ _ _ _ => (true, pm);
  planYaw := fun pm _ => pm |}.

Definition tabled_info : LocalTrajData MatrixXd :=
  mkLocalTrajData MatrixXd 7%Z 2 1000000000%Z vzero
    [[1; 2; 3]; [4; 5; 6]] [] [] [[0.5]; [1.5]; [2.5]] [] [].

(** The node and the events a handler leaves on the scripted
    collaborators (the node it was given when it fails). *)
Definition outcome (handler : @M scripted unit) (s : @KinoReplanFSM scripted)
  : @KinoReplanFSM scripted * list Event :=
  match handler s with
  | Ok (_, s', evs) => (s', evs)
  | Crash _ => (s, [])
  end.

(** * Properties *)

Arguments bind {ext A B} m k s /.
Arguments read {ext A} field s /.
Arguments write {ext} update s /.
Arguments emit {ext} e s /.
Arguments ret {ext A} a s /.
Arguments crash {ext A} f s /.
Arguments when {ext} c m /.
Arguments Dbl.ltb : simpl never.
Arguments Dbl.leb : simpl never.
Arguments Dbl.gtb : simpl never.
Arguments Dbl.geb : simpl never.
Arguments Dbl.std_min : simpl never.
Arguments Qminus : simpl never.
Arguments Qplus : simpl never.
Arguments Qmult : simpl never.
Arguments Z.add : simpl never.
Arguments Z.eqb : simpl never.
Arguments Z.leb : simpl never.
Arguments Z.ltb : simpl never.
Arguments Z.rem : simpl never.
Arguments exec_traj_t_cur : simpl never.
Arguments replan_traj_t_cur : simpl never.
Arguments vsub : simpl never.
Arguments vec3_of : simpl never.
Arguments coeff : simpl never.
Arguments rotation_x_axis : simpl never.
Arguments bspline_of : simpl never.
Arguments relocation_search : simpl never.
Arguments clearance_query : simpl never.
Arguments best_of : simpl never.
Arguments candidates : simpl never.
Arguments visited_grid : simpl never.
Arguments spec_grid : simpl never.

(** Unfold a handler on a node given field by field, and split on every
    test it meets. *)
Ltac expose :=
  unfold execFSMCallback, checkCollisionCallback, waypointCallback,
    odometryCallback, callKinodynamicReplan, changeFSMExecState,
    printFSMExecState, state_name; cbn.

Ltac branch :=
  match goal with
  | |- context [when ?c _] => destruct c eqn:?
  | |- context [if ?c then _ else _] => destruct c eqn:?
  | |- context [let (_, _) := ?p in _] => destruct p eqn:?
  end.

Ltac run := expose; repeat (branch; cbn).

Ltac branch_search :=
  match goal with
  | |- context [match relocation_search ?c ?p with _ => _ end] =>
      destruct (relocation_search c p) as [[[?|] ?]|]
  end.

Ltac inverted H := inversion H; subst; clear H.

Section Comparisons.

Lemma ltb_lt (a b : double) : Dbl.ltb a b = true <-> a < b.
Proof.
  unfold Dbl.ltb. rewrite Qlt_alt. destruct (a ?= b); split; congruence.
Qed.

Lemma ltb_ge (a b : double) : Dbl.ltb a b = false <-> b <= a.
Proof.
  split; intros H.
  - apply Qnot_lt_le. intros L. apply ltb_lt in L. congruence.
  - destruct (Dbl.ltb a b) eqn:E; [|reflexivity].
    apply ltb_lt in E. exfalso. apply (Qlt_not_le _ _ E H).
Qed.

Lemma gtb_lt (a b : double) : Dbl.gtb a b = true <-> b < a.
Proof. apply ltb_lt. Qed.

Lemma gtb_le (a b : double) : Dbl.gtb a b = false <-> a <= b.
Proof. apply ltb_ge. Qed.

Lemma leb_le (a b : double) : Dbl.leb a b = true <-> a <= b.
Proof. apply Qle_bool_iff. Qed.

Lemma leb_gt (a b : double) : Dbl.leb a b = false <-> b < a.
Proof.
  split; intros H.
  - apply Qnot_le_lt. intros L. apply leb_le in L. congruence.
  - destruct (Dbl.leb a b) eqn:E; [|reflexivity].
    apply leb_le in E. exfalso. apply (Qlt_not_le _ _ H E).
Qed.

Lemma std_min_le_l (a b : double) : Dbl.std_min a b <= a.
Proof.
  unfold Dbl.std_min. destruct (Dbl.ltb b a) eqn:E.
  - apply ltb_lt in E. apply Qlt_le_weak, E.
  - apply Qle_refl.
Qed.

Lemma std_min_ge (a b c : double) : c <= a -> c <= b -> c <= Dbl.std_min a b.
Proof. unfold Dbl.std_min. destruct (Dbl.ltb b a); auto. Qed.

Lemma seconds_nonneg (d : Z) : (0 <= d)%Z -> 0 <= seconds d.
Proof.
  intros H. unfold seconds, Qdiv.
  apply Qmult_le_0_compat; [|discriminate].
  unfold Qle. cbn. lia.
Qed.

End Comparisons.

(** Turn the recorded outcomes of the tests into order facts. *)
Ltac order_facts :=
  repeat match goal with
  | H : Dbl.ltb _ _ = true |- _ => apply ltb_lt in H
  | H : Dbl.ltb _ _ = false |- _ => apply ltb_ge in H
  | H : Dbl.gtb _ _ = true |- _ => apply gtb_lt in H
  | H : Dbl.gtb _ _ = false |- _ => apply gtb_le in H
  | H : Dbl.leb _ _ = true |- _ => apply leb_le in H
  | H : Dbl.leb _ _ = false |- _ => apply leb_gt in H
  end.

Section Policy.
Context {ext : Collaborators}.

(** C1.  In [EXEC_TRAJ] a tick always completes and applies the replan
    decision as a chain of three tests.  With [t_cur] the elapsed time
    clamped by the duration and [pos] the curve sampled there: when
    [t_cur] exceeds [duration - 0.01] -- in particular when [t_cur] is the
    duration -- the goal flag is cleared and the state becomes
    [WAIT_TARGET], whatever the distances and thresholds; otherwise, when
    the goal is closer to [pos] than [no_replan_thresh_] or the start of
    the trajectory is closer to [pos] than [replan_thresh_], the state,
    the goal flag and the goal stay as they are; otherwise the state
    becomes [REPLAN_TRAJ]. *)
Theorem exec_traj_replan_policy (now : Time) (s : KinoReplanFSM) :
  exec_state_ s = EXEC_TRAJ ->
  let info := local_data_ (planner_manager_ s) in
  let t_cur := exec_traj_t_cur now info in
  let pos := vec3_of (evaluateDeBoorT (position_traj_ info) t_cur) in
  let to_goal := norm (vsub (end_pt_ s) pos) in
  let from_start := norm (vsub (start_pos_ info) pos) in
  exists s' evs,
    execFSMCallback now s = Ok (tt, s', evs) /\
    (duration_ info - 0.01 < t_cur ->
       exec_state_ s' = WAIT_TARGET /\ have_target_ s' = false) /\
    (t_cur == duration_ info ->
       exec_state_ s' = WAIT_TARGET /\ have_target_ s' = false) /\
    (t_cur <= duration_ info - 0.01 ->
       to_goal < no_replan_thresh_ s \/ from_start < replan_thresh_ s ->
       exec_state_ s' = EXEC_TRAJ /\ have_target_ s' = have_target_ s /\
       end_pt_ s' = end_pt_ s /\ end_vel_ s' = end_vel_ s) /\
    (t_cur <= duration_ info - 0.01 ->
       no_replan_thresh_ s <= to_goal -> replan_thresh_ s <= from_start ->
       exec_state_ s' = REPLAN_TRAJ).
Proof.
  destruct s. intros He. cbn in He. subst. run.
  all: eexists; eexists; (split; [reflexivity|]); cbn; order_facts.
  all: repeat split; intros; try reflexivity; exfalso; lra.
Qed.

End Policy.

Section Clamp.
Context {ext : Collaborators}.

(** C2, as the code has it.  The [t_cur] of [EXEC_TRAJ] is
    [std::min(duration, elapsed)]: it never exceeds the duration, and it
    is not negative when the tick is not earlier than the start of the
    trajectory and the duration is not negative. *)
Theorem exec_traj_t_cur_bounds (now : Time)
  (info : LocalTrajData NonUniformBspline) :
  exec_traj_t_cur now info <= duration_ info /\
  ((start_time_ info <= now)%Z -> 0 <= duration_ info ->
   0 <= exec_traj_t_cur now info).
Proof.
  unfold exec_traj_t_cur. split.
  - apply std_min_le_l.
  - intros Hs Hd. apply std_min_ge; [exact Hd|].
    unfold elapsed. apply seconds_nonneg. lia.
Qed.

End Clamp.

Section GoalArrival.
Context {ext : Collaborators}.

(** C5.  A goal message whose first pose lies below z = -0.1 is dropped:
    the handler returns the node as it found it -- state, flags, goal,
    goal velocity and waypoint index -- and emits nothing. *)
Theorem sentinel_goal_ignored (msg : Path) (first : PoseStamped)
  (rest : list PoseStamped) (s : KinoReplanFSM) :
  poses msg = first :: rest ->
  vz (position (pose first)) < -0.1 ->
  waypointCallback msg s = Ok (tt, s, []).
Proof.
  intros Hp Hz. unfold waypointCallback. rewrite Hp.
  apply ltb_lt in Hz. rewrite Hz. reflexivity.
Qed.

(** C10.  In manual-target mode an accepted goal message sets the goal to
    the x and y of its first pose and to the height 1.0, whatever height
    the message carries. *)
Theorem manual_goal_height_fixed (msg : Path) (first : PoseStamped)
  (rest : list PoseStamped) (s : KinoReplanFSM) :
  poses msg = first :: rest ->
  -0.1 <= vz (position (pose first)) ->
  target_type_ s = MANUAL_TARGET ->
  exists s' evs,
    waypointCallback msg s = Ok (tt, s', evs) /\
    end_pt_ s' =
      mkVec (vx (position (pose first))) (vy (position (pose first))) 1.0 /\
    In (DrawGoal (end_pt_ s')) evs.
Proof.
  destruct s. intros Hp Hz Ht. cbn in Ht. subst.
  apply ltb_ge in Hz.
  unfold waypointCallback. rewrite Hp, Hz.
  destruct exec_state_0; cbn; eexists; eexists;
    (split; [reflexivity|]); cbn; auto.
Qed.


End GoalArrival.

Section Retry.
Context {ext : Collaborators}.

(** A tick in one of the two planning states calls the planner once, on
    the goal the node holds, and moves by the planner's answer alone. *)
Lemma planning_tick (now : Time) (s : KinoReplanFSM) :
  exec_state_ s = GEN_NEW_TRAJ \/ exec_state_ s = REPLAN_TRAJ ->
  exists s' evs sp sv sa,
    execFSMCallback now s = Ok (tt, s', evs) /\
    In (CallKinodynamicReplan sp sv sa (end_pt_ s) (end_vel_ s)) evs /\
    let success :=
      fst (kinodynamicReplan (planner_manager_ s) sp sv sa
             (end_pt_ s) (end_vel_ s)) in
    (replan_failed evs <-> success = false) /\
    exec_state_ s' = if success then EXEC_TRAJ else GEN_NEW_TRAJ.
Proof.
  destruct s. cbn. intros [He | He]; subst; run.
  all: do 5 eexists; (split; [reflexivity|]); cbn.
  all: split; [intuition (eauto; fail)|].
  all: match goal with H : kinodynamicReplan _ _ _ _ _ _ = _ |- _ =>
         rewrite H end; cbn.
  all: unfold replan_failed; cbn; split; [|reflexivity].
  all: split; [|solve [auto 10 | discriminate]].
  all: intros F; try reflexivity; exfalso.
  all: repeat (destruct F as [F | F]; [discriminate F|]); exact F.
Qed.

Lemma failed_tick_stays (now : Time) (s s' : KinoReplanFSM)
  (evs : list Event) :
  exec_state_ s = GEN_NEW_TRAJ ->
  execFSMCallback now s = Ok (tt, s', evs) -> replan_failed evs ->
  exec_state_ s' = GEN_NEW_TRAJ.
Proof.
  intros He Hr Hf.
  destruct (planning_tick now s (or_introl He))
    as (s1 & e1 & sp & sv & sa & Hr1 & _ & Hfail & Hst).
  rewrite Hr in Hr1. inversion Hr1; subst s1 e1.
  apply Hfail in Hf. rewrite Hf in Hst. exact Hst.
Qed.

(** C6.  A planner failure is never fatal and is retried by the state
    machine only.  A tick in [GEN_NEW_TRAJ] or [REPLAN_TRAJ] always
    completes; it reports a failure exactly when the planner's answer is
    negative, and then the next state is [GEN_NEW_TRAJ] -- from
    [GEN_NEW_TRAJ] as from [REPLAN_TRAJ] -- while a positive answer leads
    to [EXEC_TRAJ].  Hence after any number of failing ticks from
    [GEN_NEW_TRAJ] the state is still [GEN_NEW_TRAJ]. *)
Theorem replan_failure_retried_by_fsm :
  (forall (now : Time) (s : KinoReplanFSM),
     exec_state_ s = GEN_NEW_TRAJ \/ exec_state_ s = REPLAN_TRAJ ->
     exists s' evs sp sv sa,
       execFSMCallback now s = Ok (tt, s', evs) /\
       In (CallKinodynamicReplan sp sv sa (end_pt_ s) (end_vel_ s)) evs /\
       let success :=
         fst (kinodynamicReplan (planner_manager_ s) sp sv sa
                (end_pt_ s) (end_vel_ s)) in
       (replan_failed evs <-> success = false) /\
       exec_state_ s' = if success then EXEC_TRAJ else GEN_NEW_TRAJ) /\
  (forall s s' : KinoReplanFSM,
     exec_state_ s = GEN_NEW_TRAJ -> retries s s' ->
     exec_state_ s' = GEN_NEW_TRAJ).
Proof.
  split; [exact planning_tick|].
  intros s s' He Hr. revert He. induction Hr as
    [s | now s s1 evs s' Ht Hf _ IH | msg s s1 evs s' Ho _ IH | pm s s' _ IH];
    intros He.
  - exact He.
  - apply IH. eapply failed_tick_stays; eassumption.
  - apply IH. destruct s. cbn in *. inversion Ho. cbn. exact He.
  - apply IH. destruct s. exact He.
Qed.

End Retry.

Section Loops.

Lemma for_loop_values {St : Type} (cond : double -> bool)
  (next : double -> double) (body : double -> St -> option St)
  (step : St -> double -> St) :
  (forall x s, body x s = Some (step s x)) ->
  forall budget x vs s,
    for_values budget cond next x = Some vs ->
    for_loop budget cond next body x s = Some (fold_left step vs s).
Proof.
  intros Hb. induction budget as [|budget IH]; intros x vs s Hv.
  - discriminate Hv.
  - cbn in Hv |- *. destruct (cond x).
    + destruct (for_values budget cond next (next x)) as [ws|] eqn:E;
        [|discriminate Hv].
      inversion Hv; subst vs. rewrite Hb. cbn. apply IH, E.
    + inversion Hv; subst vs. reflexivity.
Qed.

Lemma fold_left_flat_map {A B C : Type} (f : A -> C -> A) (g : B -> list C)
  (l : list B) (a : A) :
  fold_left f (flat_map g l) a =
  fold_left (fun acc x => fold_left f (g x) acc) l a.
Proof.
  revert a. induction l as [|x l IH]; intros a; cbn.
  - reflexivity.
  - rewrite fold_left_app. apply IH.
Qed.

Lemma fold_left_mapped {A B C : Type} (f : A -> C -> A) (g : B -> C)
  (l : list B) (a : A) :
  fold_left f (map g l) a = fold_left (fun acc x => f acc (g x)) l a.
Proof.
  revert a. induction l as [|x l IH]; intros a; cbn; [reflexivity|apply IH].
Qed.

Lemma radii_visited :
  for_values loop_budget (fun r => Dbl.leb r (5 * dr + 0.001))
    (fun r => r + dr) dr = Some visited_radii.
Proof. vm_compute. reflexivity. Qed.

Lemma azimuths_visited :
  for_values loop_budget (fun theta => Dbl.leb theta 270)
    (fun theta => theta + dtheta) (-90) = Some visited_azimuths.
Proof. vm_compute. reflexivity. Qed.

Lemma offsets_visited :
  for_values loop_budget (fun nz => Dbl.geb nz (-1 * dz))
    (fun nz => nz - dz) (1 * dz) = Some visited_offsets.
Proof. vm_compute. reflexivity. Qed.

Lemma Forall2_Qeq_refl_on (l1 l2 : list double) :
  forallb (fun p => Qeq_bool (fst p) (snd p)) (combine l1 l2) = true ->
  List.length l1 = List.length l2 ->
  Forall2 Qeq l1 l2.
Proof.
  revert l2. induction l1 as [|a l1 IH]; intros [|b l2] Hb Hl;
    try discriminate Hl; constructor.
  - cbn in Hb. apply andb_true_iff in Hb. apply Qeq_bool_iff, Hb.
  - cbn in Hb. apply andb_true_iff in Hb. apply IH; [apply Hb|].
    cbn in Hl. congruence.
Qed.

Lemma radii_as_specified : Forall2 Qeq visited_radii spec_radii.
Proof. apply Forall2_Qeq_refl_on; vm_compute; reflexivity. Qed.

Lemma azimuths_as_specified : Forall2 Qeq visited_azimuths spec_azimuths.
Proof. apply Forall2_Qeq_refl_on; vm_compute; reflexivity. Qed.

Lemma offsets_as_specified : Forall2 Qeq visited_offsets spec_offsets.
Proof. apply Forall2_Qeq_refl_on; vm_compute; reflexivity. Qed.

Lemma Forall2_flat_map {A B : Type} (R : A -> A -> Prop) (Q : B -> B -> Prop)
  (f g : A -> list B) (l1 l2 : list A) :
  Forall2 R l1 l2 ->
  (forall a b, R a b -> Forall2 Q (f a) (g b)) ->
  Forall2 Q (flat_map f l1) (flat_map g l2).
Proof.
  intros H Hf. induction H as [|a b l1 l2 Hab _ IH]; cbn.
  - constructor.
  - apply Forall2_app; [apply Hf, Hab | apply IH].
Qed.

Lemma Forall2_mapped {A B : Type} (R : A -> A -> Prop) (Q : B -> B -> Prop)
  (f g : A -> B) (l1 l2 : list A) :
  Forall2 R l1 l2 -> (forall a b, R a b -> Q (f a) (g b)) ->
  Forall2 Q (map f l1) (map g l2).
Proof.
  intros H Hf. induction H; cbn; constructor; auto.
Qed.

(** The loops visit the grid of the specification, in its order. *)
Lemma grid_as_specified : Forall2 same_offset visited_grid spec_grid.
Proof.
  unfold visited_grid, spec_grid, grid_of.
  apply Forall2_flat_map with (R := Qeq); [apply radii_as_specified|].
  intros r1 r2 Hr.
  apply Forall2_flat_map with (R := Qeq); [apply azimuths_as_specified|].
  intros t1 t2 Ht.
  apply Forall2_mapped with (R := Qeq); [apply offsets_as_specified|].
  intros z1 z2 Hz. cbn. auto.
Qed.

End Loops.

Section Search.
Context {ext : Collaborators}.

(** The nested loops compute the tracked maximum over the candidates. *)
Lemma relocation_search_best (clearance : Vector3d -> double)
  (end_pt : Vector3d) :
  relocation_search clearance end_pt =
  Some (best_of clearance (candidates end_pt)).
Proof.
  unfold relocation_search, best_of, candidates, visited_grid, grid_of.
  rewrite fold_left_mapped, fold_left_flat_map.
  apply for_loop_values; [|apply radii_visited].
  intros r best. rewrite fold_left_flat_map.
  apply for_loop_values; [|apply azimuths_visited].
  intros theta best'. rewrite fold_left_mapped.
  apply for_loop_values; [|apply offsets_visited].
  intros nz best''. reflexivity.
Qed.

(** What tracking a maximum leaves behind: either nothing beat the
    starting value, or the result is the first point of the list that
    reaches the largest clearance. *)
Lemma track_fold (clearance : Vector3d -> double) (pts : list Vector3d)
  (b0 : option Vector3d) (m0 : double) :
  let result := fold_left (fun best pt => track clearance pt best) pts (b0, m0) in
  (result = (b0, m0) /\ forall pt, In pt pts -> clearance pt <= m0) \/
  (exists before pt after,
     pts = before ++ pt :: after /\
     result = (Some pt, clearance pt) /\ m0 < clearance pt /\
     (forall q, In q before -> clearance q < clearance pt) /\
     (forall q, In q after -> clearance q <= clearance pt)).
Proof.
  revert b0 m0. induction pts as [|p pts IH]; intros b0 m0; cbn.
  - left. split; [reflexivity|]. intros pt [].
  - change (track clearance p (b0, m0))
      with (if Dbl.gtb (clearance p) m0 then (Some p, clearance p)
            else (b0, m0)).
    destruct (Dbl.gtb (clearance p) m0) eqn:E.
    + apply gtb_lt in E. right.
      destruct (IH (Some p) (clearance p))
        as [[Hr Hle] | (bf & pt & af & Hp & Hr & Hlt & Hb & Ha)].
      * exists [], p, pts. cbn.
        split; [reflexivity|]. split; [exact Hr|]. split; [exact E|].
        split; [intros q []|exact Hle].
      * exists (p :: bf), pt, af.
        split; [rewrite Hp; reflexivity|]. split; [exact Hr|]. split; [lra|].
        split; [|exact Ha].
        intros q [<- | Hq]; [exact Hlt | apply Hb, Hq].
    + apply gtb_le in E.
      destruct (IH b0 m0)
        as [[Hr Hle] | (bf & pt & af & Hp & Hr & Hlt & Hb & Ha)].
      * left. split; [exact Hr|]. intros q [<- | Hq]; auto.
      * right. exists (p :: bf), pt, af.
        split; [rewrite Hp; reflexivity|]. split; [exact Hr|]. split; [exact Hlt|].
        split; [|exact Ha].
        intros q [<- | Hq]; [lra | apply Hb, Hq].
Qed.

Lemma best_of_max (clearance : Vector3d -> double) (pts : list Vector3d) :
  -1 <= snd (best_of clearance pts) /\
  (forall pt, In pt pts -> clearance pt <= snd (best_of clearance pts)) /\
  (-1 < snd (best_of clearance pts) ->
   exists before pt after,
     pts = before ++ pt :: after /\
     best_of clearance pts = (Some pt, clearance pt) /\
     (forall q, In q before -> clearance q < clearance pt) /\
     (forall q, In q after -> clearance q <= clearance pt)).
Proof.
  unfold best_of.
  pose proof (track_fold clearance pts None (-1.0)) as H. cbv zeta in H.
  unfold double in *.
  destruct H as [[Hr Hle] | (bf & pt & af & Hp & Hr & Hlt & Hb & Ha)];
    rewrite Hr; cbn [snd].
  - split; [lra|]. split.
    + intros pt Hin. specialize (Hle pt Hin). lra.
    + intros Hlt. exfalso. lra.
  - split; [lra|]. split.
    + intros q Hin. rewrite Hp in Hin. apply in_app_or in Hin.
      destruct Hin as [Hin | [<- | Hin]].
      * apply Qlt_le_weak, Hb, Hin.
      * apply Qle_refl.
      * apply Ha, Hin.
    + intros _. exists bf, pt, af. auto.
Qed.

Lemma gtb_same (a a' b b' : double) :
  a == a' -> b == b' -> Dbl.gtb a b = Dbl.gtb a' b'.
Proof.
  intros Ha Hb. unfold Dbl.gtb, Dbl.ltb.
  rewrite (Qcompare_comp b b' Hb a a' Ha). reflexivity.
Qed.

Lemma track_fold_same (c1 c2 : Vector3d -> double) (pts : list Vector3d) :
  (forall pt, In pt pts -> c1 pt == c2 pt) ->
  forall (b : option Vector3d) (m1 m2 : double),
    m1 == m2 ->
    let r1 := fold_left (fun best pt => track c1 pt best) pts (b, m1) in
    let r2 := fold_left (fun best pt => track c2 pt best) pts (b, m2) in
    fst r1 = fst r2 /\ snd r1 == snd r2.
Proof.
  induction pts as [|p pts IH]; intros Hc b m1 m2 Hm; cbn.
  - split; [reflexivity|exact Hm].
  - change (track c1 p (b, m1))
      with (if Dbl.gtb (c1 p) m1 then (Some p, c1 p) else (b, m1)).
    change (track c2 p (b, m2))
      with (if Dbl.gtb (c2 p) m2 then (Some p, c2 p) else (b, m2)).
    assert (Hp : c1 p == c2 p) by (apply Hc; left; reflexivity).
    rewrite (gtb_same _ _ _ _ Hp Hm).
    destruct (Dbl.gtb (c2 p) m2); apply IH; auto;
      intros q Hq; apply Hc; right; exact Hq.
Qed.

Lemma best_of_same (c1 c2 : Vector3d -> double) (pts : list Vector3d) :
  (forall pt, In pt pts -> c1 pt == c2 pt) ->
  fst (best_of c1 pts) = fst (best_of c2 pts) /\
  snd (best_of c1 pts) == snd (best_of c2 pts).
Proof.
  intros Hc.
  exact (track_fold_same c1 c2 pts Hc None (-1.0) (-1.0) (Qeq_refl _)).
Qed.

(** C8.  The goal relocation search is deterministic: two runs from the
    same goal whose clearance queries get the same answers on every
    candidate of the grid both complete and select the same candidate,
    with the same clearance. *)
Theorem relocation_search_deterministic
  (clearance1 clearance2 : Vector3d -> double) (end_pt : Vector3d) :
  (forall pt, In pt (candidates end_pt) -> clearance1 pt == clearance2 pt) ->
  exists goal max_dist1 max_dist2,
    relocation_search clearance1 end_pt = Some (goal, max_dist1) /\
    relocation_search clearance2 end_pt = Some (goal, max_dist2) /\
    max_dist1 == max_dist2.
Proof.
  intros Hc. rewrite !relocation_search_best.
  destruct (best_of_same clearance1 clearance2 (candidates end_pt) Hc)
    as [Hg Hm].
  destruct (best_of clearance1 (candidates end_pt)) as [g1 d1].
  destruct (best_of clearance2 (candidates end_pt)) as [g2 d2].
  cbn in Hg, Hm. subst g2. exists g1, d1, d2. auto.
Qed.

End Search.

Section Safety.
Context {ext : Collaborators}.

(** C4.  With a goal held whose clearance is at most 0.3, the safety
    monitor completes, having evaluated the clearance of every candidate
    of the fixed grid (radii 0.5 to 2.5 in steps of 0.5, azimuths -90 to
    270 in steps of 30, vertical offsets +0.3, 0, -0.3) and tracked the
    largest.  When that maximum exceeds 0.3, the goal becomes the
    candidate that reaches it, [have_target_] is set again, the goal
    velocity is zeroed, and the state becomes [REPLAN_TRAJ] exactly when it
    was [EXEC_TRAJ]; otherwise the goal is left as it was, the state
    becomes [REPLAN_TRAJ] whatever it was, and one replan signal is
    published. *)
Theorem safety_monitor_goal_relocation (s : KinoReplanFSM) :
  have_target_ s = true ->
  clearance_query (planner_manager_ s) (end_pt_ s) <= 0.3 ->
  exec_state_ s <> REPLAN_NEW ->
  let clearance := clearance_query (planner_manager_ s) in
  let pts := candidates (end_pt_ s) in
  exists goal max_dist s' evs,
    relocation_search clearance (end_pt_ s) = Some (goal, max_dist) /\
    (goal, max_dist) = best_of clearance pts /\
    Forall2 same_offset visited_grid spec_grid /\
    (forall pt, In pt pts -> clearance pt <= max_dist) /\
    checkCollisionCallback s = Ok (tt, s', evs) /\
    (0.3 < max_dist ->
       exists pt,
         In pt pts /\ goal = Some pt /\ clearance pt = max_dist /\
         end_pt_ s' = pt /\ have_target_ s' = true /\ end_vel_ s' = vzero /\
         (exec_state_ s = EXEC_TRAJ -> exec_state_ s' = REPLAN_TRAJ) /\
         (exec_state_ s <> EXEC_TRAJ -> exec_state_ s' = exec_state_ s) /\
         (In (Cout "[SAFETY]: from EXEC_TRAJ to REPLAN_TRAJ") evs <->
          exec_state_ s = EXEC_TRAJ) /\
         In (DrawGoal pt) evs) /\
    (max_dist <= 0.3 ->
       end_pt_ s' = end_pt_ s /\ end_vel_ s' = end_vel_ s /\
       have_target_ s' = true /\ exec_state_ s' = REPLAN_TRAJ /\
       replan_signals evs = 1%nat /\ In PublishReplan evs).
Proof.
  destruct s. cbn. intros Ht Hc He. subst have_target_0.
  destruct (best_of_max (clearance_query planner_manager_0)
              (candidates end_pt_0)) as (Hlow & Hmax & Harg).
  destruct (best_of (clearance_query planner_manager_0)
              (candidates end_pt_0)) as [goal m] eqn:Eb.
  cbn [snd] in *.
  exists goal, m.
  unfold checkCollisionCallback. cbn.
  apply leb_le in Hc. rewrite Hc. cbn.
  rewrite relocation_search_best, Eb. cbn.
  destruct (Dbl.gtb m 0.3) eqn:Eg; cbn.
  - apply gtb_lt in Eg.
    destruct Harg as (bf & pt & af & Hp & Hr & _); [lra|].
    inversion Hr; subst. cbn.
    assert (Hin : In pt (candidates end_pt_0))
      by (rewrite Hp; apply in_or_app; right; left; reflexivity).
    destruct exec_state_0; try (exfalso; apply He; reflexivity); cbn;
      eexists; eexists;
      (split; [reflexivity|]); (split; [reflexivity|]);
      (split; [apply grid_as_specified|]); (split; [exact Hmax|]);
      (split; [reflexivity|]); cbn;
      (split; [|intros; exfalso; lra]); intros _; exists pt;
      repeat split; auto; try congruence; try (cbn; tauto);
      try (intros F; exfalso;
           repeat (destruct F as [F | F]; [discriminate F|]); exact F).
  - apply gtb_le in Eg.
    destruct exec_state_0; try (exfalso; apply He; reflexivity); cbn;
      eexists; eexists;
      (split; [reflexivity|]); (split; [reflexivity|]);
      (split; [apply grid_as_specified|]); (split; [exact Hmax|]);
      (split; [reflexivity|]); cbn;
      (split; [intros; exfalso; lra|]); intros _;
      repeat split; auto.
Qed.

End Safety.

Section Signals.
Context {ext : Collaborators}.

(** C7.  A replan signal is published once by a tick in [REPLAN_TRAJ],
    before the planner is called and whatever the planner answers, and
    once by the safety monitor when a relocation of the goal fails.  No
    other tick publishes one -- in particular not a [GEN_NEW_TRAJ]
    attempt -- nor does a successful relocation, a safety tick without a
    relocation, a goal message or an odometry message. *)
Theorem replan_signal_once_per_attempt :
  (forall (now : Time) (s : KinoReplanFSM),
     exec_state_ s = REPLAN_TRAJ ->
     exists s' evs,
       execFSMCallback now s = Ok (tt, s', evs) /\
       replan_signals evs = 1%nat /\
       replan_signals (until_call evs) = 1%nat /\
       exists sp sv sa ep ev, In (CallKinodynamicReplan sp sv sa ep ev) evs) /\
  (forall (now : Time) (s : KinoReplanFSM),
     exec_state_ s = GEN_NEW_TRAJ ->
     exists s' evs,
       execFSMCallback now s = Ok (tt, s', evs) /\
       replan_signals evs = 0%nat /\
       exists sp sv sa ep ev, In (CallKinodynamicReplan sp sv sa ep ev) evs) /\
  (forall (now : Time) (s s' : KinoReplanFSM) (evs : list Event),
     execFSMCallback now s = Ok (tt, s', evs) ->
     exec_state_ s <> REPLAN_TRAJ -> replan_signals evs = 0%nat) /\
  (forall s : KinoReplanFSM,
     exec_state_ s <> REPLAN_NEW ->
     exists s' evs,
       checkCollisionCallback s = Ok (tt, s', evs) /\
       let clearance := clearance_query (planner_manager_ s) in
       let attempted :=
         have_target_ s = true /\ clearance (end_pt_ s) <= 0.3 in
       let max_dist := snd (best_of clearance (candidates (end_pt_ s))) in
       (attempted -> max_dist <= 0.3 -> replan_signals evs = 1%nat) /\
       (attempted -> 0.3 < max_dist -> replan_signals evs = 0%nat) /\
       (~ attempted -> replan_signals evs = 0%nat)) /\
  (forall (msg : Path) (s s' : KinoReplanFSM) (evs : list Event),
     waypointCallback msg s = Ok (tt, s', evs) ->
     replan_signals evs = 0%nat) /\
  (forall (msg : Odometry) (s s' : KinoReplanFSM) (evs : list Event),
     odometryCallback msg s = Ok (tt, s', evs) ->
     replan_signals evs = 0%nat).
Proof.
  split; [|split; [|split; [|split; [|split]]]].
  - intros now s He. destruct s. cbn in He. subst. run.
    all: eexists; eexists; (split; [reflexivity|]); cbn.
    all: split; [reflexivity|]; split; [reflexivity|].
    all: do 5 eexists; cbn; intuition (eauto; fail).
  - intros now s He. destruct s. cbn in He. subst. run.
    all: eexists; eexists; (split; [reflexivity|]); cbn.
    all: split; [reflexivity|].
    all: do 5 eexists; cbn; intuition (eauto; fail).
  - intros now s s' evs Hr He. destruct s. cbn in He. revert Hr.
    destruct exec_state_0; try (exfalso; apply He; reflexivity); run.
    all: intros Hr; try discriminate Hr; inverted Hr; reflexivity.
  - intros s He. destruct s. cbn in He |- *.
    destruct (best_of_max (clearance_query planner_manager_0)
                (candidates end_pt_0)) as (_ & _ & Harg).
    unfold checkCollisionCallback. cbn.
    destruct have_target_0; cbn.
    + destruct (Dbl.leb (clearance_query planner_manager_0 end_pt_0) 0.3)
        eqn:El; cbn.
      * rewrite relocation_search_best.
        destruct (best_of (clearance_query planner_manager_0)
                    (candidates end_pt_0)) as [goal m] eqn:Eb.
        cbn [snd] in *. cbn.
        destruct (Dbl.gtb m 0.3) eqn:Eg; cbn.
        -- apply gtb_lt in Eg.
           destruct Harg as (bf & pt & af & _ & Hr & _); [lra|].
           inverted Hr. cbn.
           destruct exec_state_0; try (exfalso; apply He; reflexivity); cbn;
             eexists; eexists; (split; [reflexivity|]); cbn;
             repeat split; intros; try reflexivity; exfalso; lra.
        -- apply gtb_le in Eg. apply leb_le in El.
           destruct exec_state_0; try (exfalso; apply He; reflexivity); cbn;
             eexists; eexists; (split; [reflexivity|]); cbn;
             repeat split; intros; try reflexivity; exfalso;
             try lra; auto.
      * apply leb_gt in El.
        destruct exec_state_0; try (exfalso; apply He; reflexivity); cbn;
          repeat (branch; cbn);
          eexists; eexists; (split; [reflexivity|]); cbn;
          repeat split; intros; try reflexivity; exfalso;
          match goal with H : _ /\ _ |- _ => destruct H; lra end.
    + destruct exec_state_0; try (exfalso; apply He; reflexivity); cbn;
        repeat (branch; cbn);
        eexists; eexists; (split; [reflexivity|]); cbn;
        repeat split; intros; try reflexivity; exfalso;
        match goal with H : _ /\ _ |- _ => destruct H; discriminate end.
  - intros msg s s' evs. destruct s.
    unfold waypointCallback, changeFSMExecState, state_name.
    destruct (poses msg) as [|first rest]; [discriminate|].
    destruct exec_state_0; cbn; repeat (branch; cbn).
    all: intros Hr; try discriminate Hr; inverted Hr; reflexivity.
  - intros msg s s' evs. destruct s. run.
    intros Hr; inverted Hr; reflexivity.
Qed.

End Signals.

Section Reachability.
Context {ext : Collaborators}.

Lemma tick_named (now : Time) (s : KinoReplanFSM) :
  named s ->
  exists s' evs, execFSMCallback now s = Ok (tt, s', evs) /\ named s'.
Proof.
  unfold named. destruct s. cbn. intros He.
  destruct exec_state_0; try (exfalso; apply He; reflexivity); run.
  all: eexists; eexists; (split; [reflexivity|]); cbn; discriminate.
Qed.

Lemma safety_named (s : KinoReplanFSM) :
  named s ->
  match checkCollisionCallback s with
  | Ok (_, s', _) => named s'
  | Crash f => f <> BadStateName
  end.
Proof.
  unfold named. destruct s. cbn. intros He.
  destruct exec_state_0; try (exfalso; apply He; reflexivity).
  all: unfold checkCollisionCallback, changeFSMExecState, state_name; cbn.
  all: repeat ((branch || branch_search); cbn); discriminate.
Qed.

Lemma waypoint_named (msg : Path) (s : KinoReplanFSM) :
  named s ->
  match waypointCallback msg s with
  | Ok (_, s', _) => named s'
  | Crash f => f <> BadStateName
  end.
Proof.
  unfold named. destruct s. cbn. intros He.
  unfold waypointCallback, changeFSMExecState, state_name.
  destruct (poses msg) as [|first rest]; [discriminate|].
  destruct exec_state_0; try (exfalso; apply He; reflexivity).
  all: cbn; repeat (branch; cbn); discriminate.
Qed.

Lemma step_named (s s' : KinoReplanFSM) (evs : list Event) :
  step s evs s' -> named s -> named s'.
Proof.
  intros Hs Hn. destruct Hs as
    [now s s' evs H | s s' evs H | msg s s' evs H | msg s s' evs H | pm s].
  - destruct (tick_named now s Hn) as (s1 & e1 & H1 & Hn1).
    rewrite H in H1. inverted H1. exact Hn1.
  - pose proof (safety_named s Hn) as Hc. rewrite H in Hc. exact Hc.
  - pose proof (waypoint_named msg s Hn) as Hc. rewrite H in Hc. exact Hc.
  - destruct s. cbn in H. inverted H. exact Hn.
  - destruct s. exact Hn.
Qed.

Lemma reachable_named (s : KinoReplanFSM) : reachable s -> named s.
Proof.
  induction 1 as [s (He & _) | s evs s' _ IH Hs].
  - unfold named. rewrite He. discriminate.
  - eapply step_named; eassumption.
Qed.

(** The tick counter of [execFSMCallback] stays below 100. *)
Lemma reachable_counter (s : KinoReplanFSM) :
  reachable s -> (0 <= fsm_num s < 100)%Z.
Proof.
  induction 1 as [s (_ & _ & _ & _ & _ & Hn) | s evs s' _ IH Hs].
  - rewrite Hn. lia.
  - destruct Hs as
      [now s s' evs H | s s' evs H | msg s s' evs H | msg s s' evs H | pm s].
    + destruct s. cbn in IH. revert H. destruct exec_state_0; run.
      all: intros H; try discriminate H; inverted H; cbn.
      all: repeat match goal with
           | E : (_ =? _)%Z = false |- _ => apply Z.eqb_neq in E
           end; lia.
    + destruct s. cbn in IH. revert H.
      unfold checkCollisionCallback, changeFSMExecState, state_name.
      destruct exec_state_0; cbn;
        repeat ((branch || branch_search); cbn);
        intros H; try discriminate H; inverted H; cbn; exact IH.
    + destruct s. cbn in IH. revert H.
      unfold waypointCallback, changeFSMExecState, state_name.
      destruct (poses msg) as [|first rest]; [discriminate|].
      destruct exec_state_0; cbn; repeat (branch; cbn);
        intros H; try discriminate H; inverted H; cbn; exact IH.
    + destruct s. cbn in *. inverted H. cbn. exact IH.
    + destruct s. exact IH.
Qed.

(** C9.  From the constructed node, whatever ticks and messages follow,
    the planning state is one of [INIT], [WAIT_TARGET], [GEN_NEW_TRAJ],
    [REPLAN_TRAJ], [EXEC_TRAJ] -- no handler assigns [REPLAN_NEW] -- so
    its integer value is a valid index into the five state names:
    [printFSMExecState] and [changeFSMExecState] find their names, and no
    handler runs into a missing one. *)
Theorem reachable_state_is_named (s : KinoReplanFSM) :
  reachable s ->
  In (exec_state_ s) [INIT; WAIT_TARGET; GEN_NEW_TRAJ; REPLAN_TRAJ; EXEC_TRAJ] /\
  (int_of_state (exec_state_ s) < List.length state_str)%nat /\
  (exists evs, printFSMExecState s = Ok (tt, s, evs)) /\
  (forall new_state pos_call,
     new_state <> REPLAN_NEW ->
     exists evs,
       changeFSMExecState new_state pos_call s =
       Ok (tt, set_exec_state_ new_state s, evs)) /\
  (forall now, exists s' evs, execFSMCallback now s = Ok (tt, s', evs)) /\
  checkCollisionCallback s <> Crash BadStateName /\
  (forall msg, waypointCallback msg s <> Crash BadStateName) /\
  (forall evs s', step s evs s' -> exec_state_ s' <> REPLAN_NEW).
Proof.
  intros Hr. pose proof (reachable_named s Hr) as Hn.
  split; [|split; [|split; [|split; [|split; [|split; [|split]]]]]].
  - unfold named in Hn. destruct (exec_state_ s); cbn; auto 6.
    exfalso. apply Hn. reflexivity.
  - unfold named in Hn. destruct (exec_state_ s); cbn; try lia.
    exfalso. apply Hn. reflexivity.
  - unfold named in Hn. destruct s. cbn in Hn.
    destruct exec_state_0; try (exfalso; apply Hn; reflexivity);
      eexists; reflexivity.
  - intros new_state pos_call Hnew. unfold named in Hn. destruct s.
    cbn in Hn.
    destruct exec_state_0; try (exfalso; apply Hn; reflexivity);
      destruct new_state; try (exfalso; apply Hnew; reflexivity);
      eexists; reflexivity.
  - intros now. destruct (tick_named now s Hn) as (s' & evs & H & _).
    eauto.
  - pose proof (safety_named s Hn) as Hc. intros E. rewrite E in Hc.
    apply Hc. reflexivity.
  - intros msg. pose proof (waypoint_named msg s Hn) as Hc. intros E.
    rewrite E in Hc. apply Hc. reflexivity.
  - intros evs s' Hs. exact (step_named s s' evs Hs Hn).
Qed.

End Reachability.

(** * Concrete runs

    Each property above with a premise is applied here to a scripted node,
    which shows its premises can be met; the last lemma is a run on which
    the elapsed time leaves the trajectory's interval. *)

Lemma exec_traj_replan_policy_witness :
  exec_state_ (demo_node EXEC_TRAJ true true) = EXEC_TRAJ /\
  exists s' evs,
    execFSMCallback 2995000000%Z (demo_node EXEC_TRAJ true true) =
      Ok (tt, s', evs) /\
    exec_state_ s' = WAIT_TARGET /\ have_target_ s' = false.
Proof.
  split; [reflexivity|].
  destruct (exec_traj_replan_policy (ext := scripted) 2995000000%Z
              (demo_node EXEC_TRAJ true true) eq_refl)
    as (s' & evs & Hrun & Hexhausted & _).
  exists s', evs. split; [exact Hrun|].
  apply Hexhausted. vm_compute. reflexivity.
Defined.

Lemma exec_traj_t_cur_bounds_witness :
  (start_time_ demo_info <= 1500000000)%Z /\ 0 <= duration_ demo_info /\
  0 <= exec_traj_t_cur (ext := scripted) 1500000000%Z demo_info.
Proof.
  assert (Hs : (start_time_ demo_info <= 1500000000)%Z)
    by (vm_compute; discriminate).
  assert (Hd : 0 <= duration_ demo_info) by (vm_compute; discriminate).
  split; [exact Hs|]. split; [exact Hd|].
  exact (proj2 (exec_traj_t_cur_bounds (ext := scripted) 1500000000%Z
                  demo_info) Hs Hd).
Defined.

Lemma sentinel_goal_ignored_witness :
  vz (position (pose (mkPoseStamped (mkPose (mkVec 4 5 (-5)) (mkQuat 1 0 0 0)))))
    < -0.1 /\
  waypointCallback (demo_goal (-5)) (demo_node WAIT_TARGET false true) =
    Ok (tt, demo_node WAIT_TARGET false true, []).
Proof.
  assert (Hz : vz (position (pose (mkPoseStamped
                 (mkPose (mkVec 4 5 (-5)) (mkQuat 1 0 0 0))))) < -0.1)
    by (vm_compute; reflexivity).
  split; [exact Hz|].
  exact (sentinel_goal_ignored (ext := scripted) (demo_goal (-5)) _ []
           (demo_node WAIT_TARGET false true) eq_refl Hz).
Defined.

Lemma manual_goal_height_fixed_witness :
  target_type_ (demo_node WAIT_TARGET false true) = MANUAL_TARGET /\
  exists s' evs,
    waypointCallback (demo_goal 7) (demo_node WAIT_TARGET false true) =
      Ok (tt, s', evs) /\
    end_pt_ s' = mkVec 4 5 1.0.
Proof.
  split; [reflexivity|].
  assert (Hz : -0.1 <= 7) by (vm_compute; discriminate).
  destruct (manual_goal_height_fixed (ext := scripted) (demo_goal 7) _ []
              (demo_node WAIT_TARGET false true) eq_refl Hz eq_refl)
    as (s' & evs & Hrun & Hgoal & _).
  exists s', evs. split; [exact Hrun | exact Hgoal].
Defined.


Lemma safety_monitor_goal_relocation_witness :
  have_target_ (demo_node EXEC_TRAJ true true) = true /\
  clearance_query (planner_manager_ (demo_node EXEC_TRAJ true true))
    (end_pt_ (demo_node EXEC_TRAJ true true)) <= 0.3 /\
  exists s' evs,
    checkCollisionCallback (demo_node EXEC_TRAJ true true) =
      Ok (tt, s', evs) /\
    Forall2 same_offset visited_grid spec_grid.
Proof.
  assert (Hc : clearance_query
                 (planner_manager_ (demo_node EXEC_TRAJ true true))
                 (end_pt_ (demo_node EXEC_TRAJ true true)) <= 0.3)
    by (vm_compute; discriminate).
  assert (Hn : exec_state_ (demo_node EXEC_TRAJ true true) <> REPLAN_NEW)
    by discriminate.
  split; [reflexivity|]. split; [exact Hc|].
  destruct (safety_monitor_goal_relocation (ext := scripted)
              (demo_node EXEC_TRAJ true true) eq_refl Hc Hn)
    as (goal & max_dist & s' & evs & _ & _ & Hgrid & _ & Hrun & _).
  exists s', evs. split; [exact Hrun | exact Hgrid].
Defined.

Lemma replan_failure_retried_by_fsm_witness :
  exec_state_ (demo_node GEN_NEW_TRAJ true false) = GEN_NEW_TRAJ /\
  exists s',
    retries (demo_node GEN_NEW_TRAJ true false) s' /\
    exec_state_ s' = GEN_NEW_TRAJ.
Proof.
  split; [reflexivity|].
  destruct (proj1 (replan_failure_retried_by_fsm (ext := scripted)) 0%Z
              (demo_node GEN_NEW_TRAJ true false) (or_introl eq_refl))
    as (s' & evs & sp & sv & sa & Hrun & _ & Hfail & _).
  assert (Hr : retries (demo_node GEN_NEW_TRAJ true false) s').
  { eapply retries_tick; [exact Hrun | | apply retries_done].
    apply Hfail. reflexivity. }
  exists s'. split; [exact Hr|].
  exact (proj2 (replan_failure_retried_by_fsm (ext := scripted))
           (demo_node GEN_NEW_TRAJ true false) s' eq_refl Hr).
Defined.

Lemma replan_signal_once_per_attempt_witness :
  exec_state_ (demo_node REPLAN_TRAJ true false) = REPLAN_TRAJ /\
  exists s' evs,
    execFSMCallback 0%Z (demo_node REPLAN_TRAJ true false) =
      Ok (tt, s', evs) /\
    replan_signals evs = 1%nat.
Proof.
  split; [reflexivity|].
  destruct (proj1 (replan_signal_once_per_attempt (ext := scripted)) 0%Z
              (demo_node REPLAN_TRAJ true false) eq_refl)
    as (s' & evs & Hrun & Hone & _).
  exists s', evs. split; [exact Hrun | exact Hone].
Defined.

Lemma relocation_search_deterministic_witness :
  (forall pt, In pt (candidates (ext := scripted) vzero) ->
     demo_clearance pt 0 == demo_clearance pt (-1.0)) /\
  exists goal max_dist1 max_dist2,
    relocation_search (ext := scripted)
      (fun pt => demo_clearance pt 0) vzero = Some (goal, max_dist1) /\
    relocation_search (ext := scripted)
      (fun pt => demo_clearance pt (-1.0)) vzero = Some (goal, max_dist2) /\
    max_dist1 == max_dist2.
Proof.
  assert (Hsame : forall pt, In pt (candidates (ext := scripted) vzero) ->
                    demo_clearance pt 0 == demo_clearance pt (-1.0))
    by (intros pt _; apply Qeq_refl).
  split; [exact Hsame|].
  exact (relocation_search_deterministic (ext := scripted)
           (fun pt => demo_clearance pt 0)
           (fun pt => demo_clearance pt (-1.0)) vzero Hsame).
Defined.

Lemma reachable_state_is_named_witness :
  reachable demo_fresh /\
  In (exec_state_ demo_fresh)
     [INIT; WAIT_TARGET; GEN_NEW_TRAJ; REPLAN_TRAJ; EXEC_TRAJ].
Proof.
  assert (Hr : reachable demo_fresh)
    by (apply reachable_start; repeat split; reflexivity).
  split; [exact Hr|].
  exact (proj1 (reachable_state_is_named (ext := scripted) demo_fresh Hr)).
Defined.

(** C2, as the specification states it, does not hold of the code.  On
    the two-second trajectory that starts at one second, a tick at time
    zero gives [EXEC_TRAJ] a negative [t_cur], and a tick at four seconds
    gives [REPLAN_TRAJ] a [t_cur] of three seconds, past the duration;
    that tick then samples the curves at three seconds. *)
Lemma t_cur_leaves_trajectory_interval :
  ~ (0 <= exec_traj_t_cur (ext := scripted) 0%Z demo_info
       <= duration_ demo_info) /\
  ~ (0 <= replan_traj_t_cur (ext := scripted) 4000000000%Z demo_info
       <= duration_ demo_info) /\
  exists s' evs,
    execFSMCallback 4000000000%Z (demo_node REPLAN_TRAJ true true) =
      Ok (tt, s', evs) /\
    vx (start_pt_ s') == 3 /\ duration_ demo_info == 2.
Proof.
  split; [|split].
  - intros [H _]. vm_compute in H. apply H. reflexivity.
  - intros [_ H]. vm_compute in H. apply H. reflexivity.
  - eexists. eexists. split; [vm_compute; reflexivity|].
    split; vm_compute; reflexivity.
Qed.


(** * Further properties of the node *)

Arguments int_for : simpl never.
Arguments load_waypoint : simpl never.
Arguments to_string : simpl never.
Arguments waypoint_key : simpl never.
Arguments int_parameter : simpl never.
Arguments double_parameter : simpl never.

(** Open a node into its fields, under fixed names. *)
Ltac fields s :=
  destruct s as [p_type p_nrt p_rt p_wps p_num f_trigger f_target f_odom
                 f_state o_pos o_vel o_ori s_pt s_vel s_acc s_yaw g_pt g_vel
                 f_wp f_pm f_counter].

Section Waiting.
Context {ext : Collaborators}.

(** X1.  The two waiting states only wait.  A tick in [INIT] moves to
    [WAIT_TARGET] when odometry has been received and a goal message has
    triggered the node, and otherwise stays; a tick in [WAIT_TARGET] moves
    to [GEN_NEW_TRAJ] when a goal is held, and otherwise stays.  Either
    way the tick calls no planner, publishes nothing, and leaves the
    flags, the goal, the start state and the planner as they were. *)
Theorem waiting_states_gate (now : Time) (s : KinoReplanFSM) :
  exec_state_ s = INIT \/ exec_state_ s = WAIT_TARGET ->
  exists s' evs,
    execFSMCallback now s = Ok (tt, s', evs) /\
    (exec_state_ s = INIT ->
     exec_state_ s' =
       if have_odom_ s && trigger_ s then WAIT_TARGET else INIT) /\
    (exec_state_ s = WAIT_TARGET ->
     exec_state_ s' = if have_target_ s then GEN_NEW_TRAJ else WAIT_TARGET) /\
    planner_calls evs = 0%nat /\ published_trajectories evs = 0%nat /\
    replan_signals evs = 0%nat /\
    trigger_ s' = trigger_ s /\ have_odom_ s' = have_odom_ s /\
    have_target_ s' = have_target_ s /\
    end_pt_ s' = end_pt_ s /\ end_vel_ s' = end_vel_ s /\
    start_pt_ s' = start_pt_ s /\ start_vel_ s' = start_vel_ s /\
    start_acc_ s' = start_acc_ s /\ start_yaw_ s' = start_yaw_ s /\
    planner_manager_ s' = planner_manager_ s.
Proof.
  fields s. cbn. intros [He | He]; subst; run.
  all: eexists; eexists; (split; [reflexivity|]); cbn.
  all: repeat match goal with
       | H : negb _ = _ |- _ => apply (f_equal negb) in H;
                                rewrite negb_involutive in H; cbn in H; subst
       end; cbn.
  all: repeat split; intros; try reflexivity; discriminate.
Qed.

End Waiting.

Section Frames.
Context {ext : Collaborators}.

(** What no tick changes, and the only ways it changes the rest. *)
Lemma tick_frame (now : Time) (s s' : KinoReplanFSM) (evs : list Event) :
  execFSMCallback now s = Ok (tt, s', evs) ->
  same_parameters s s' /\
  trigger_ s' = trigger_ s /\ have_odom_ s' = have_odom_ s /\
  current_wp_ s' = current_wp_ s /\
  odom_pos_ s' = odom_pos_ s /\ odom_vel_ s' = odom_vel_ s /\
  odom_orient_ s' = odom_orient_ s /\
  end_pt_ s' = end_pt_ s /\ end_vel_ s' = end_vel_ s /\
  (have_target_ s' = have_target_ s \/
   exec_state_ s = EXEC_TRAJ /\ exec_state_ s' = WAIT_TARGET /\
   have_target_ s' = false) /\
  (exec_state_ s' = exec_state_ s \/
   In (exec_state_ s, exec_state_ s') tick_edges) /\
  (exec_state_ s' = EXEC_TRAJ -> exec_state_ s <> EXEC_TRAJ ->
   (exec_state_ s = GEN_NEW_TRAJ \/ exec_state_ s = REPLAN_TRAJ) /\
   published_trajectories evs = 1%nat /\ planner_calls evs = 1%nat /\
   In (PublishBspline (bspline_of (local_data_ (planner_manager_ s')))) evs).
Proof.
  unfold same_parameters. fields s. intros H. revert H.
  destruct f_state; run.
  all: intros H; try discriminate H; inverted H; cbn.
  all: repeat split; auto; try congruence.
  all: try (right; cbn; tauto).
  all: try (intros; exfalso; congruence).
  all: cbn; tauto.
Qed.

Lemma safety_frame (s s' : KinoReplanFSM) (evs : list Event) :
  checkCollisionCallback s = Ok (tt, s', evs) ->
  same_parameters s s' /\
  trigger_ s' = trigger_ s /\ have_odom_ s' = have_odom_ s /\
  have_target_ s' = have_target_ s /\ current_wp_ s' = current_wp_ s /\
  odom_pos_ s' = odom_pos_ s /\ odom_vel_ s' = odom_vel_ s /\
  odom_orient_ s' = odom_orient_ s /\
  start_pt_ s' = start_pt_ s /\ start_vel_ s' = start_vel_ s /\
  start_acc_ s' = start_acc_ s /\ start_yaw_ s' = start_yaw_ s /\
  planner_manager_ s' = planner_manager_ s /\ fsm_num s' = fsm_num s /\
  (exec_state_ s' = exec_state_ s \/ exec_state_ s' = REPLAN_TRAJ) /\
  planner_calls evs = 0%nat /\ published_trajectories evs = 0%nat.
Proof.
  unfold same_parameters. fields s. intros H. revert H.
  unfold checkCollisionCallback, changeFSMExecState, state_name.
  destruct f_state; cbn; repeat ((branch || branch_search); cbn).
  all: intros H; try discriminate H; inverted H; cbn.
  all: repeat split; auto.
Qed.

Lemma waypoint_frame (msg : Path) (s s' : KinoReplanFSM) (evs : list Event) :
  waypointCallback msg s = Ok (tt, s', evs) ->
  target_type_ s' = target_type_ s /\
  no_replan_thresh_ s' = no_replan_thresh_ s /\
  replan_thresh_ s' = replan_thresh_ s /\
  waypoints_ s' = waypoints_ s /\ waypoint_num_ s' = waypoint_num_ s /\
  have_odom_ s' = have_odom_ s /\
  odom_pos_ s' = odom_pos_ s /\ odom_vel_ s' = odom_vel_ s /\
  odom_orient_ s' = odom_orient_ s /\
  start_pt_ s' = start_pt_ s /\ start_vel_ s' = start_vel_ s /\
  start_acc_ s' = start_acc_ s /\ start_yaw_ s' = start_yaw_ s /\
  planner_manager_ s' = planner_manager_ s /\ fsm_num s' = fsm_num s /\
  (trigger_ s = true -> trigger_ s' = true) /\
  (have_target_ s = true -> have_target_ s' = true) /\
  (exec_state_ s' = EXEC_TRAJ -> exec_state_ s = EXEC_TRAJ) /\
  planner_calls evs = 0%nat /\ published_trajectories evs = 0%nat.
Proof.
  fields s. intros H. revert H.
  unfold waypointCallback, changeFSMExecState, state_name.
  destruct (poses msg) as [|first rest]; [discriminate|].
  destruct f_state; cbn; repeat (branch; cbn).
  all: intros H; try discriminate H; inverted H; cbn.
  all: repeat split; auto; discriminate.
Qed.

End Frames.

Section Steps.
Context {ext : Collaborators}.

(** X2.  The node starts executing only on a freshly published
    trajectory: whenever an activity takes the state into [EXEC_TRAJ] from
    another state, that activity is a tick in [GEN_NEW_TRAJ] or
    [REPLAN_TRAJ] which called the planner once and published, once, the
    trajectory the planner now holds. *)
Theorem exec_traj_entered_with_trajectory (s s' : KinoReplanFSM)
  (evs : list Event) :
  step s evs s' ->
  exec_state_ s' = EXEC_TRAJ -> exec_state_ s <> EXEC_TRAJ ->
  (exec_state_ s = GEN_NEW_TRAJ \/ exec_state_ s = REPLAN_TRAJ) /\
  published_trajectories evs = 1%nat /\ planner_calls evs = 1%nat /\
  In (PublishBspline (bspline_of (local_data_ (planner_manager_ s')))) evs.
Proof.
  intros Hs He' He. destruct Hs as
    [now s s' evs H | s s' evs H | msg s s' evs H | msg s s' evs H | pm s].
  - apply tick_frame in H. apply H; assumption.
  - apply safety_frame in H.
    destruct H as (_&_&_&_&_&_&_&_&_&_&_&_&_&_& [Hst | Hst] & _);
      exfalso; congruence.
  - apply waypoint_frame in H.
    destruct H as (_&_&_&_&_&_&_&_&_&_&_&_&_&_&_&_&_& Hst & _).
    exfalso. auto.
  - fields s. cbn in *. inverted H. cbn in He'. exfalso. auto.
  - fields s. cbn in *. exfalso. auto.
Qed.

(** X3.  A tick changes the state only along the edges of the state
    diagram -- [INIT] to [WAIT_TARGET], [WAIT_TARGET] to [GEN_NEW_TRAJ],
    [GEN_NEW_TRAJ] to [EXEC_TRAJ], [EXEC_TRAJ] to [WAIT_TARGET] or
    [REPLAN_TRAJ], [REPLAN_TRAJ] to [EXEC_TRAJ] or [GEN_NEW_TRAJ] -- and
    never touches the goal, the odometry or the waypoint index. *)
Theorem tick_follows_diagram (now : Time) (s s' : KinoReplanFSM)
  (evs : list Event) :
  execFSMCallback now s = Ok (tt, s', evs) ->
  (exec_state_ s' = exec_state_ s \/
   In (exec_state_ s, exec_state_ s') tick_edges) /\
  end_pt_ s' = end_pt_ s /\ end_vel_ s' = end_vel_ s /\
  odom_pos_ s' = odom_pos_ s /\ odom_vel_ s' = odom_vel_ s /\
  odom_orient_ s' = odom_orient_ s /\ current_wp_ s' = current_wp_ s.
Proof.
  intros H. apply tick_frame in H.
  destruct H as (_&_&_& Hw & Hp & Hv & Ho & Hg & Hgv & _ & Hst & _).
  auto 10.
Qed.

(** X4.  A held goal is dropped in one way only: by the tick that finds
    the trajectory exhausted in [EXEC_TRAJ] and goes to [WAIT_TARGET].  No
    message, no safety tick and no other tick clears [have_target_]. *)
Theorem goal_dropped_only_on_exhaustion (s s' : KinoReplanFSM)
  (evs : list Event) :
  step s evs s' ->
  have_target_ s = true -> have_target_ s' = false ->
  exec_state_ s = EXEC_TRAJ /\ exec_state_ s' = WAIT_TARGET /\
  exists now, execFSMCallback now s = Ok (tt, s', evs).
Proof.
  intros Hs Ht Ht'. destruct Hs as
    [now s s' evs H | s s' evs H | msg s s' evs H | msg s s' evs H | pm s].
  - pose proof (tick_frame now s s' evs H) as F.
    destruct F as (_&_&_&_&_&_&_&_&_& [Hsame | (He & He' & _)] & _).
    + exfalso. congruence.
    + split; [exact He|]. split; [exact He'|]. exists now. exact H.
  - apply safety_frame in H. destruct H as (_&_&_& Hsame & _).
    exfalso. congruence.
  - apply waypoint_frame in H.
    destruct H as (_&_&_&_&_&_&_&_&_&_&_&_&_&_&_&_& Hk & _).
    exfalso. rewrite (Hk Ht) in Ht'. discriminate.
  - fields s. cbn in *. inverted H. cbn in Ht'. exfalso. congruence.
  - fields s. cbn in *. exfalso. congruence.
Qed.

(** X5.  Whatever the node does, its parameters (flight type, the two
    thresholds, the waypoints and their count) stay as configured, and the
    flags [trigger_] and [have_odom_] are latches: once set they stay
    set. *)
Theorem parameters_and_latches_kept (s s' : KinoReplanFSM)
  (evs : list Event) :
  step s evs s' ->
  same_parameters s s' /\
  (trigger_ s = true -> trigger_ s' = true) /\
  (have_odom_ s = true -> have_odom_ s' = true).
Proof.
  intros Hs. destruct Hs as
    [now s s' evs H | s s' evs H | msg s s' evs H | msg s s' evs H | pm s].
  - apply tick_frame in H. destruct H as (Hp & Ht & Ho & _).
    split; [exact Hp|]. split; congruence.
  - apply safety_frame in H. destruct H as (Hp & Ht & Ho & _).
    split; [exact Hp|]. split; congruence.
  - apply waypoint_frame in H.
    destruct H as (H1&H2&H3&H4&H5&Ho&_&_&_&_&_&_&_&_&_& Ht & _).
    unfold same_parameters. repeat split; auto. congruence.
  - fields s. cbn in *. inverted H. unfold same_parameters. cbn. auto 10.
  - fields s. unfold same_parameters. cbn. auto 10.
Qed.

End Steps.

Section Odometry.
Context {ext : Collaborators}.

(** X6.  Odometry is last-writer-wins.  The handler never fails and emits
    nothing; it stores the pose, velocity and orientation of the message
    and sets [have_odom_]; and two messages in a row leave the node
    exactly as the second alone would.  The planning state, the goal and
    the other flags are not touched. *)
Theorem odometry_last_writer_wins (first second : Odometry)
  (s : KinoReplanFSM) :
  exists s1 s2,
    odometryCallback first s = Ok (tt, s1, []) /\
    odometryCallback second s1 = Ok (tt, s2, []) /\
    odometryCallback second s = Ok (tt, s2, []) /\
    have_odom_ s2 = true /\
    odom_pos_ s2 = position (odom_pose second) /\
    odom_vel_ s2 = twist_linear second /\
    odom_orient_ s2 = orientation (odom_pose second) /\
    exec_state_ s2 = exec_state_ s /\ trigger_ s2 = trigger_ s /\
    have_target_ s2 = have_target_ s /\ end_pt_ s2 = end_pt_ s /\
    end_vel_ s2 = end_vel_ s /\ current_wp_ s2 = current_wp_ s /\
    planner_manager_ s2 = planner_manager_ s /\ same_parameters s s2.
Proof.
  fields s. unfold same_parameters. eexists. eexists.
  split; [reflexivity|]. split; [reflexivity|]. split; [reflexivity|].
  cbn. auto 20.
Qed.

End Odometry.

Section Heartbeat.
Context {ext : Collaborators}.

Lemma tick_counter (now : Time) (s : KinoReplanFSM) :
  named s ->
  exists s' evs,
    execFSMCallback now s = Ok (tt, s', evs) /\ named s' /\
    fsm_num s' = (if (fsm_num s + 1 =? 100)%Z then 0 else fsm_num s + 1)%Z /\
    status_lines evs = (if (fsm_num s + 1 =? 100)%Z then 1 else 0)%nat.
Proof.
  unfold named. fields s. cbn. intros He.
  destruct f_state; try (exfalso; apply He; reflexivity); run.
  all: eexists; eexists; (split; [reflexivity|]); cbn.
  all: repeat split; try discriminate; reflexivity.
Qed.

(** X7.  The status line is printed on every hundredth tick.  From a node
    in a named state whose tick counter is [c], with [0 <= c < 100], any
    [k] ticks in a row all complete; afterwards the counter is
    [(c + k) mod 100] and exactly [(c + k) / 100] status lines were
    printed. *)
Theorem status_line_every_hundredth_tick (nows : list Time)
  (s : KinoReplanFSM) :
  named s -> (0 <= fsm_num s < 100)%Z ->
  exists s' evs,
    run_ticks nows s = Ok (tt, s', evs) /\ named s' /\
    fsm_num s' = ((fsm_num s + Z.of_nat (List.length nows)) mod 100)%Z /\
    Z.of_nat (status_lines evs) =
      ((fsm_num s + Z.of_nat (List.length nows)) / 100)%Z.
Proof.
  revert s. induction nows as [|now nows IH]; intros s Hn Hc.
  - exists s, []. split; [reflexivity|]. split; [exact Hn|].
    cbn [List.length Z.of_nat]. rewrite Z.add_0_r.
    split; [rewrite Z.mod_small by lia; reflexivity|].
    rewrite Z.div_small by lia. reflexivity.
  - destruct (tick_counter now s Hn) as (s1 & e1 & H1 & Hn1 & Hc1 & Hl1).
    assert (Hb : (0 <= fsm_num s1 < 100)%Z).
    { rewrite Hc1. destruct (fsm_num s + 1 =? 100)%Z eqn:E; [lia|].
      apply Z.eqb_neq in E. lia. }
    destruct (IH s1 Hn1 Hb) as (s' & e2 & H2 & Hn' & Hc' & Hl').
    exists s', (e1 ++ e2). cbn [run_ticks]. unfold bind. rewrite H1, H2.
    split; [reflexivity|]. split; [exact Hn'|].
    unfold status_lines in *. rewrite filter_app, length_app, Nat2Z.inj_add.
    rewrite Hl', Hc', Hl1, Hc1. cbn [List.length].
    rewrite Nat2Z.inj_succ.
    destruct (fsm_num s + 1 =? 100)%Z eqn:E.
    + apply Z.eqb_eq in E.
      replace (fsm_num s + Z.succ (Z.of_nat (List.length nows)))%Z
        with (1 * 100 + Z.of_nat (List.length nows))%Z by lia.
      rewrite Z.add_0_l.
      rewrite Z.add_comm, Z.mod_add, Z.div_add by lia.
      split; [reflexivity|]. cbn. lia.
    + replace (fsm_num s + Z.succ (Z.of_nat (List.length nows)))%Z
        with (fsm_num s + 1 + Z.of_nat (List.length nows))%Z by lia.
      split; [reflexivity|]. cbn. lia.
Qed.

End Heartbeat.

Section Monitor.
Context {ext : Collaborators}.

(** X8.  With no goal relocation due -- no goal held, or the goal's
    clearance above 0.3 -- the safety monitor only checks the active
    trajectory: in [EXEC_TRAJ] with the planner reporting a collision it
    warns and forces [REPLAN_TRAJ]; in every other case it returns the
    node untouched and emits nothing. *)
Theorem trajectory_collision_check (s : KinoReplanFSM) :
  have_target_ s = false \/
  0.3 < clearance_query (planner_manager_ s) (end_pt_ s) ->
  exists s' evs,
    checkCollisionCallback s = Ok (tt, s', evs) /\
    (exec_state_ s = EXEC_TRAJ ->
     fst (checkTrajCollision (planner_manager_ s)) = false ->
     s' = set_exec_state_ REPLAN_TRAJ s /\
     evs = [Warn "current traj in collision.";
            Cout "[SAFETY]: from EXEC_TRAJ to REPLAN_TRAJ"]) /\
    (exec_state_ s <> EXEC_TRAJ \/
     fst (checkTrajCollision (planner_manager_ s)) = true ->
     s' = s /\ evs = []).
Proof.
  fields s. cbn. intros Hskip.
  unfold checkCollisionCallback, changeFSMExecState, state_name. cbn.
  assert (Hw : (if f_target
                then Dbl.leb (clearance_query f_pm g_pt) 0.3 else false)
               = false).
  { destruct Hskip as [-> | Hc]; [reflexivity|].
    destruct f_target; [|reflexivity]. apply leb_gt. exact Hc. }
  destruct f_target; cbn; [rewrite Hw; cbn|].
  all: destruct f_state; cbn;
    try (destruct (checkTrajCollision f_pm) as [[|] d] eqn:Ec; cbn);
    eexists; eexists; (split; [reflexivity|]); cbn;
    (split; [intros; try discriminate; auto
            |intros [Hne | Hsafe];
             try (exfalso; apply Hne; reflexivity);
             try discriminate; auto]).
Qed.

(** X9.  The safety monitor is confined to the goal and the state.  It
    never calls the planner and never publishes a trajectory; it leaves
    the flags, the odometry, the start state, the waypoint index, the
    planner and the parameters as they were; and the only state it ever
    sets is [REPLAN_TRAJ]. *)
Theorem safety_monitor_confined (s s' : KinoReplanFSM) (evs : list Event) :
  checkCollisionCallback s = Ok (tt, s', evs) ->
  (exec_state_ s' = exec_state_ s \/ exec_state_ s' = REPLAN_TRAJ) /\
  planner_calls evs = 0%nat /\ published_trajectories evs = 0%nat /\
  trigger_ s' = trigger_ s /\ have_odom_ s' = have_odom_ s /\
  have_target_ s' = have_target_ s /\ current_wp_ s' = current_wp_ s /\
  odom_pos_ s' = odom_pos_ s /\ odom_vel_ s' = odom_vel_ s /\
  start_pt_ s' = start_pt_ s /\ start_vel_ s' = start_vel_ s /\
  start_acc_ s' = start_acc_ s /\ start_yaw_ s' = start_yaw_ s /\
  planner_manager_ s' = planner_manager_ s /\ same_parameters s s'.
Proof.
  intros H. apply safety_frame in H.
  destruct H as (Hp & Ht & Ho & Hg & Hw & Hop & Hov & _ & Hsp & Hsv & Hsa
                 & Hsy & Hpm & _ & Hst & Hc & Hb).
  auto 20.
Qed.

Lemma candidate_height (end_pt pt : Vector3d) :
  In pt (candidates end_pt) ->
  -0.3 <= vz pt - vz end_pt <= 0.3.
Proof.
  unfold candidates, visited_grid, grid_of. intros H.
  apply in_map_iff in H. destruct H as ([[r theta] nz] & <- & H).
  apply in_flat_map in H. destruct H as (r' & _ & H).
  apply in_flat_map in H. destruct H as (t' & _ & H).
  apply in_map_iff in H. destruct H as (z' & E & H).
  inversion E; subst. cbn [candidate_at candidate vz].
  unfold visited_offsets in H. cbn [iterates] in H.
  unfold dz in *.
  destruct H as [<- | [<- | [<- | []]]]; split; lra.
Qed.

(** X10.  The safety monitor never moves the goal to a point that is not
    clear.  After a safety tick the goal is either where it was, or it is
    a candidate of the grid around the old goal whose clearance exceeds
    0.3 -- while the old goal's did not -- and whose height differs from
    the old goal's by at most 0.3. *)
Theorem relocated_goal_is_clear (s s' : KinoReplanFSM) (evs : list Event) :
  checkCollisionCallback s = Ok (tt, s', evs) ->
  end_pt_ s' = end_pt_ s \/
  (In (end_pt_ s') (candidates (end_pt_ s)) /\
   0.3 < clearance_query (planner_manager_ s) (end_pt_ s') /\
   clearance_query (planner_manager_ s) (end_pt_ s) <= 0.3 /\
   -0.3 <= vz (end_pt_ s') - vz (end_pt_ s) <= 0.3 /\
   end_vel_ s' = vzero).
Proof.
  fields s. cbn. intros H. revert H.
  destruct (best_of_max (clearance_query f_pm) (candidates g_pt))
    as (_ & _ & Harg).
  unfold checkCollisionCallback, changeFSMExecState, state_name. cbn.
  destruct f_target; cbn.
  - destruct (Dbl.leb (clearance_query f_pm g_pt) 0.3) eqn:El; cbn.
    + rewrite relocation_search_best.
      destruct (best_of (clearance_query f_pm) (candidates g_pt))
        as [goal m] eqn:Eb.
      cbn [snd] in *. cbn.
      destruct (Dbl.gtb m 0.3) eqn:Eg; cbn.
      * apply gtb_lt in Eg. apply leb_le in El.
        destruct Harg as (bf & pt & af & Hp & Hr & _); [lra|].
        inverted Hr. cbn.
        assert (Hin : In pt (candidates g_pt))
          by (rewrite Hp; apply in_or_app; right; left; reflexivity).
        pose proof (candidate_height g_pt pt Hin) as Hh.
        destruct f_state; cbn; intros H; try discriminate H; inverted H;
          cbn; right; auto.
      * destruct f_state; cbn; repeat (branch; cbn);
          intros H; try discriminate H; inverted H; cbn; left; reflexivity.
    + destruct f_state; cbn; repeat (branch; cbn);
        intros H; try discriminate H; inverted H; cbn; left; reflexivity.
  - destruct f_state; cbn; repeat (branch; cbn);
      intros H; try discriminate H; inverted H; cbn; left; reflexivity.
Qed.

(** X11.  A relocation settles.  When the safety monitor has moved the
    goal to a clear candidate, running it again straight away changes
    nothing and emits nothing: the new goal needs no relocation, and the
    state it left is not [EXEC_TRAJ]. *)
Theorem relocation_settles (s : KinoReplanFSM) :
  named s -> have_target_ s = true ->
  clearance_query (planner_manager_ s) (end_pt_ s) <= 0.3 ->
  0.3 < snd (best_of (clearance_query (planner_manager_ s))
                (candidates (end_pt_ s))) ->
  exists s1 evs1,
    checkCollisionCallback s = Ok (tt, s1, evs1) /\
    0.3 < clearance_query (planner_manager_ s1) (end_pt_ s1) /\
    checkCollisionCallback s1 = Ok (tt, s1, []).
Proof.
  unfold named. fields s. cbn. intros He Ht Hc Hm. subst f_target.
  destruct (best_of_max (clearance_query f_pm) (candidates g_pt))
    as (_ & _ & Harg).
  destruct Harg as (bf & pt & af & _ & Hr & _); [lra|].
  rewrite Hr in Hm. cbn [snd] in Hm.
  unfold checkCollisionCallback, changeFSMExecState, state_name. cbn.
  apply leb_le in Hc. rewrite Hc. cbn.
  rewrite relocation_search_best, Hr. cbn.
  apply gtb_lt in Hm. rewrite Hm. cbn. apply gtb_lt in Hm.
  assert (Hskip : Dbl.leb (clearance_query f_pm pt) 0.3 = false)
    by (apply leb_gt; exact Hm).
  destruct f_state; try (exfalso; apply He; reflexivity); cbn;
    eexists; eexists; (split; [reflexivity|]); cbn;
    (split; [exact Hm|]); rewrite Hskip; reflexivity.
Qed.

End Monitor.

Section Planning.
Context {ext : Collaborators}.

Ltac no_such_event :=
  let F := fresh "F" in
  intros F; cbn in F;
  repeat (destruct F as [F | F]; [discriminate F|]); exact F.

(** X12.  The planner is called at most once per tick.  A tick in
    [GEN_NEW_TRAJ] or [REPLAN_TRAJ] calls it exactly once and then either
    publishes one trajectory and enters [EXEC_TRAJ], or reports the
    failure, publishes none and enters [GEN_NEW_TRAJ].  A tick in any
    other state calls no planner, publishes no trajectory and leaves the
    planner and the start state alone. *)
Theorem planner_called_once_per_planning_tick (now : Time)
  (s s' : KinoReplanFSM) (evs : list Event) :
  execFSMCallback now s = Ok (tt, s', evs) ->
  (exec_state_ s = GEN_NEW_TRAJ \/ exec_state_ s = REPLAN_TRAJ ->
   planner_calls evs = 1%nat /\
   (published_trajectories evs = 1%nat /\ exec_state_ s' = EXEC_TRAJ /\
    ~ replan_failed evs \/
    published_trajectories evs = 0%nat /\ exec_state_ s' = GEN_NEW_TRAJ /\
    replan_failed evs)) /\
  (exec_state_ s <> GEN_NEW_TRAJ -> exec_state_ s <> REPLAN_TRAJ ->
   planner_calls evs = 0%nat /\ published_trajectories evs = 0%nat /\
   planner_manager_ s' = planner_manager_ s /\
   start_pt_ s' = start_pt_ s /\ start_vel_ s' = start_vel_ s /\
   start_acc_ s' = start_acc_ s /\ start_yaw_ s' = start_yaw_ s).
Proof.
  fields s. intros H. revert H. unfold replan_failed.
  destruct f_state; run.
  all: intros H; try discriminate H; inverted H; cbn.
  all: split; [intros [E | E]; try discriminate E
              |intros N1 N2;
               try (exfalso; apply N1; reflexivity);
               try (exfalso; apply N2; reflexivity)].
  all: try (split; [reflexivity|]).
  all: try solve [repeat split; reflexivity].
  all: try solve [left; split; [reflexivity|]; split; [reflexivity|];
                  no_such_event].
  all: right; split; [reflexivity|]; split; [reflexivity|]; cbn; tauto.
Qed.

(** X13.  The boundary conditions of a planner call.  From
    [GEN_NEW_TRAJ] the planner is asked to start at the odometry position
    and velocity with zero acceleration, and the yaw start has zero rate
    and acceleration; from [REPLAN_TRAJ] it is asked to start at the
    position, velocity and acceleration of the active trajectory sampled
    at the elapsed time.  Both ask for the held goal and goal velocity,
    store the start state in the node, and leave the planner as the call
    -- followed by yaw planning when it succeeded -- returned it. *)
Theorem planning_boundary_conditions (now : Time) (s : KinoReplanFSM) :
  exec_state_ s = GEN_NEW_TRAJ \/ exec_state_ s = REPLAN_TRAJ ->
  let info := local_data_ (planner_manager_ s) in
  let t := elapsed now info in
  let sample curve := vec3_of (evaluateDeBoorT (curve info) t) in
  exists s' evs,
    execFSMCallback now s = Ok (tt, s', evs) /\
    In (CallKinodynamicReplan (start_pt_ s') (start_vel_ s') (start_acc_ s')
          (end_pt_ s) (end_vel_ s)) evs /\
    (exec_state_ s = GEN_NEW_TRAJ ->
     start_pt_ s' = odom_pos_ s /\ start_vel_ s' = odom_vel_ s /\
     start_acc_ s' = vzero /\
     vy (start_yaw_ s') = 0 /\ vz (start_yaw_ s') = 0) /\
    (exec_state_ s = REPLAN_TRAJ ->
     start_pt_ s' = sample position_traj_ /\
     start_vel_ s' = sample velocity_traj_ /\
     start_acc_ s' = sample acceleration_traj_ /\
     start_yaw_ s' =
       mkVec (coeff (evaluateDeBoorT (yaw_traj_ info) t) 0)
             (coeff (evaluateDeBoorT (yawdot_traj_ info) t) 0)
             (coeff (evaluateDeBoorT (yawdotdot_traj_ info) t) 0)) /\
    planner_manager_ s' =
      (let answer :=
         kinodynamicReplan (planner_manager_ s) (start_pt_ s')
           (start_vel_ s') (start_acc_ s') (end_pt_ s) (end_vel_ s) in
       if fst answer then planYaw (snd answer) (start_yaw_ s')
       else snd answer).
Proof.
  fields s. cbn. intros [He | He]; subst; run.
  all: eexists; eexists; (split; [reflexivity|]); cbn.
  all: match goal with H : kinodynamicReplan _ _ _ _ _ _ = _ |- _ =>
         rewrite H end; cbn.
  all: split; [tauto|].
  all: repeat split; intros; try reflexivity; discriminate.
Qed.

Lemma map_nth_seq {A B : Type} (f : A -> B) (d : A) (l : list A) :
  map (fun i => f (nth i l d)) (seq 0 (List.length l)) = map f l.
Proof.
  induction l as [|a l IH]; [reflexivity|].
  cbn [List.length seq map nth]. f_equal.
  rewrite <- seq_shift, map_map. exact IH.
Qed.

Lemma rows_of_points (ctrl : list (list Q)) :
  Forall (fun row => List.length row = 3%nat) ctrl ->
  map (fun p => [vx p; vy p; vz p])
    (map (fun row => mkVec (nth 0 row 0) (nth 1 row 0) (nth 2 row 0)) ctrl)
  = ctrl.
Proof.
  induction 1 as [|row ctrl Hr _ IH]; [reflexivity|].
  cbn [map]. rewrite IH. f_equal.
  destruct row as [|a [|b [|c [|e row]]]]; try discriminate Hr.
  reflexivity.
Qed.

Lemma rows_of_scalars (ctrl : list (list Q)) :
  Forall (fun row => List.length row = 1%nat) ctrl ->
  map (fun y => [y]) (map (fun row => nth 0 row 0) ctrl) = ctrl.
Proof.
  induction 1 as [|row ctrl Hr _ IH]; [reflexivity|].
  cbn [map]. rewrite IH. f_equal.
  destruct row as [|a [|b row]]; try discriminate Hr. reflexivity.
Qed.

(** X14.  The published trajectory can be read back.  The message built
    from the planner's data has order 3 and carries the start time and the
    id of the trajectory; its knots are the position curve's knot vector;
    it has one position point per row of the control-point matrix, and
    when every row has three entries the points are those rows; its yaw
    points are the first entries of the rows of the yaw curve's control
    points; its yaw interval is the yaw curve's. *)
Theorem published_trajectory_round_trip
  (info : LocalTrajData NonUniformBspline) :
  let msg := bspline_of info in
  let ctrl := getControlPoint (position_traj_ info) in
  let yaw_ctrl := getControlPoint (yaw_traj_ info) in
  order msg = 3%Z /\ start_time msg = start_time_ info /\
  traj_id msg = traj_id_ info /\
  knots msg = getKnot (position_traj_ info) /\
  List.length (pos_pts msg) = rows ctrl /\
  (Forall (fun row => List.length row = 3%nat) ctrl ->
   map (fun p => [vx p; vy p; vz p]) (pos_pts msg) = ctrl) /\
  yaw_pts msg = map (fun row => nth 0 row 0) yaw_ctrl /\
  (Forall (fun row => List.length row = 1%nat) yaw_ctrl ->
   map (fun y => [y]) (yaw_pts msg) = yaw_ctrl) /\
  yaw_dt msg = getInterval (yaw_traj_ info).
Proof.
  cbv zeta. unfold bspline_of.
  cbn [order start_time traj_id knots pos_pts yaw_pts yaw_dt].
  pose proof (map_nth_seq (fun x => x) 0 (getKnot (position_traj_ info)))
    as Eknot.
  pose proof (map_nth_seq
                (fun row => mkVec (nth 0 row 0) (nth 1 row 0) (nth 2 row 0))
                [] (getControlPoint (position_traj_ info))) as Epos.
  pose proof (map_nth_seq (fun row => nth 0 row 0) []
                (getControlPoint (yaw_traj_ info))) as Eyaw.
  cbv beta in Eknot, Epos, Eyaw. rewrite map_id in Eknot.
  unfold coeff, rows, entry. unfold MatrixXd, VectorXd, double in *.
  rewrite Epos, Eyaw.
  split; [reflexivity|]. split; [reflexivity|]. split; [reflexivity|].
  split; [exact Eknot|].
  split; [apply length_map|].
  split; [apply rows_of_points|].
  split; [reflexivity|].
  split; [apply rows_of_scalars|reflexivity].
Qed.

End Planning.

Section Flights.
Context {ext : Collaborators}.

(** Settle the integer tests on the literals a run meets. *)
Ltac settle_tests :=
  try match goal with
  | H : false = true |- _ => discriminate H
  | H : true = false |- _ => discriminate H
  end;
  try match goal with
  | H : fst (_, _) = _ |- _ => cbn in H; discriminate H
  | H : fst ?x = _, E : ?x = _ |- _ => rewrite E in H; cbn in H; discriminate H
  end;
  repeat match goal with
  | H : (_ =? _)%Z = _ |- _ => vm_compute in H; try discriminate H; clear H
  end.

(** X15.  The first flight depends on the visualisation pointer.  Take a
    node in [INIT] and manual mode, one odometry message, one accepted
    goal message and three ticks.  With [visualization_] set they always
    complete and call the planner exactly once, on the third tick: from
    the odometry position and velocity, at rest in acceleration, towards
    the goal's x and y at height 1.0 with zero goal velocity; the node
    ends in [EXEC_TRAJ] when the planner succeeds and in [GEN_NEW_TRAJ]
    when it fails.  With [visualization_] null, as [init] of
    kino_replan_fsm_node.cpp leaves it, the goal handler calls through
    the null pointer and the flight ends there. *)
Theorem first_flight_depends_on_visualization (odom : Odometry)
  (goal : Path) (first : PoseStamped) (rest : list PoseStamped)
  (t1 t2 t3 : Time) (s : KinoReplanFSM) :
  exec_state_ s = INIT -> target_type_ s = MANUAL_TARGET ->
  poses goal = first :: rest -> -0.1 <= vz (position (pose first)) ->
  let target :=
    mkVec (vx (position (pose first))) (vy (position (pose first))) 1.0 in
  let start := position (odom_pose odom) in
  let velocity := twist_linear odom in
  (exists s' evs,
     first_flight true odom goal [t1; t2; t3] s = Ok (tt, s', evs) /\
     planner_calls evs = 1%nat /\
     In (CallKinodynamicReplan start velocity vzero target vzero) evs /\
     end_pt_ s' = target /\ start_pt_ s' = start /\
     exec_state_ s' =
       if fst (kinodynamicReplan (planner_manager_ s) start velocity vzero
                 target vzero)
       then EXEC_TRAJ else GEN_NEW_TRAJ) /\
  first_flight false odom goal [t1; t2; t3] s = Crash NullPointer.
Proof.
  fields s. cbn. intros He Hm Hp Hz. subst.
  apply ltb_ge in Hz.
  unfold first_flight, waypointCallback_on. rewrite Hp.
  cbn. rewrite Hz. cbn. rewrite Z.eqb_refl. cbn.
  split; [|reflexivity].
  run.
  all: settle_tests.
  all: eexists; eexists; (split; [reflexivity|]); cbn.
  all: split; [reflexivity|]; split; [tauto|]; auto.
Qed.

(** X16.  A goal in flight is replanned towards on the next tick.  In
    [EXEC_TRAJ] and manual mode, an accepted goal message followed by a
    tick always completes, publishes exactly one replan signal, and calls
    the planner once with the new goal -- the message's x and y at height
    1.0, zero goal velocity -- starting from the active trajectory
    sampled at the elapsed time. *)
Theorem goal_in_flight_replans_towards_it (goal : Path)
  (first : PoseStamped) (rest : list PoseStamped) (now : Time)
  (s : KinoReplanFSM) :
  exec_state_ s = EXEC_TRAJ -> target_type_ s = MANUAL_TARGET ->
  poses goal = first :: rest -> -0.1 <= vz (position (pose first)) ->
  let target :=
    mkVec (vx (position (pose first))) (vy (position (pose first))) 1.0 in
  let info := local_data_ (planner_manager_ s) in
  let t := replan_traj_t_cur now info in
  let sample curve := vec3_of (evaluateDeBoorT (curve info) t) in
  exists s' evs,
    bind (waypointCallback goal) (fun _ => execFSMCallback now) s =
      Ok (tt, s', evs) /\
    replan_signals evs = 1%nat /\ planner_calls evs = 1%nat /\
    In (CallKinodynamicReplan (sample position_traj_)
          (sample velocity_traj_) (sample acceleration_traj_) target vzero)
       evs /\
    end_pt_ s' = target /\
    exec_state_ s' =
      if fst (kinodynamicReplan (planner_manager_ s) (sample position_traj_)
                (sample velocity_traj_) (sample acceleration_traj_) target
                vzero)
      then EXEC_TRAJ else GEN_NEW_TRAJ.
Proof.
  fields s. cbn. intros He Hm Hp Hz. subst.
  apply ltb_ge in Hz.
  unfold waypointCallback. cbn. rewrite Hp.
  cbn. rewrite Hz. cbn. rewrite Z.eqb_refl. run.
  all: settle_tests.
  all: eexists; eexists; (split; [reflexivity|]); cbn.
  all: split; [reflexivity|]; split; [reflexivity|]; split; [tauto|]; auto.
Qed.

End Flights.

Section DefinedBehaviour.
Context {ext : Collaborators}.

(** The handler of the claims is the handler on a node whose
    [visualization_] is set. *)
Lemma waypointCallback_on_set (msg : Path) (s : KinoReplanFSM) :
  waypointCallback_on true msg s = waypointCallback msg s.
Proof. reflexivity. Qed.


(** X18.  The relocation never copies a goal it did not assign.  The
    search keeps its best candidate in a local [goal] that starts
    unassigned and copies it into [end_pt_] when the best clearance
    exceeds 0.3.  The best clearance starts at -1.0, so a best clearance
    above 0.3 means that a candidate was stored.  Whatever the distance
    field answers, the safety monitor therefore never reads the
    unassigned [goal], and its three loops always run to their end. *)
Theorem relocation_never_copies_unset_goal (s : KinoReplanFSM) :
  checkCollisionCallback s <> Crash UnsetGoal /\
  checkCollisionCallback s <> Crash LoopBudget.
Proof.
  assert (Hmon : forall f, checkCollisionCallback s = Crash f ->
                   f = BadStateName).
  { fields s. cbn.
    destruct (best_of_max (clearance_query f_pm) (candidates g_pt))
      as (_ & _ & Harg).
    unfold checkCollisionCallback, changeFSMExecState, state_name. cbn.
    destruct f_target; cbn.
    - destruct (Dbl.leb (clearance_query f_pm g_pt) 0.3) eqn:El; cbn.
      + rewrite relocation_search_best.
        destruct (best_of (clearance_query f_pm) (candidates g_pt))
          as [goal m] eqn:Eb.
        cbn [snd] in *. cbn.
        destruct (Dbl.gtb m 0.3) eqn:Eg; cbn.
        * apply gtb_lt in Eg.
          destruct Harg as (bf & pt & af & _ & Hr & _); [lra|].
          inverted Hr. cbn.
          destruct f_state; cbn; repeat (branch; cbn);
            intros fault H; try discriminate H.
        * destruct f_state; cbn; repeat (branch; cbn);
            intros fault H; try discriminate H; inverted H; auto.
      + destruct f_state; cbn; repeat (branch; cbn);
          intros fault H; try discriminate H.
    - destruct f_state; cbn; repeat (branch; cbn);
        intros fault H; try discriminate H. }
  split; intros H; apply Hmon in H; discriminate H.
Qed.

End DefinedBehaviour.

Section PresetCycle.
Context {ext : Collaborators}.



End PresetCycle.

Section Construction.
Context {ext : Collaborators}.

(** The waypoint loaded for index [i]. *)
Lemma load_waypoint_ok (ps : Parameters) (i : Z) (s : KinoReplanFSM) :
  (0 <= i < 50)%Z ->
  load_waypoint ps i s =
  Ok (tt,
      set_waypoints_ (fun j =>
        if (j =? i)%Z then
          mkVec (double_parameter ps (waypoint_key i "_x") (-1.0))
                (double_parameter ps (waypoint_key i "_y") (-1.0))
                (double_parameter ps (waypoint_key i "_z") (-1.0))
        else waypoints_ s j) s,
      []).
Proof.
  intros Hi. unfold load_waypoint.
  replace ((0 <=? i)%Z && (i <? 50)%Z) with true
    by (symmetry; apply andb_true_iff; split;
        [apply Z.leb_le | apply Z.ltb_lt]; lia).
  reflexivity.
Qed.

Lemma int_for_step (budget : nat) (i bound : Z) (body : Z -> M unit)
  (s : KinoReplanFSM) :
  int_for (S budget) i bound body s =
  if (i <? bound)%Z then
    match body i s with
    | Crash f => Crash f
    | Ok (_, s1, e1) =>
        match int_for budget (i + 1)%Z bound body s1 with
        | Crash f => Crash f
        | Ok (b, s2, e2) => Ok (b, s2, e1 ++ e2)
        end
    end
  else Ok (tt, s, []).
Proof.
  change (int_for (S budget) i bound body)
    with (if (i <? bound)%Z
          then bind (body i) (fun _ => int_for budget (i + 1)%Z bound body)
          else ret tt).
  destruct (i <? bound)%Z; reflexivity.
Qed.

Lemma waypoint_loop (ps : Parameters) (budget : nat) :
  forall (i num : Z) (s : KinoReplanFSM),
    (0 <= i)%Z -> (num <= 50)%Z -> (Z.to_nat (num - i) < budget)%nat ->
    exists w,
      int_for budget i num (load_waypoint ps) s =
        Ok (tt, set_waypoints_ w s, []) /\
      (forall j, (i <= j < num)%Z ->
         w j = mkVec (double_parameter ps (waypoint_key j "_x") (-1.0))
                     (double_parameter ps (waypoint_key j "_y") (-1.0))
                     (double_parameter ps (waypoint_key j "_z") (-1.0))) /\
      (forall j, ~ (i <= j < num)%Z -> w j = waypoints_ s j).
Proof.
  induction budget as [|budget IH]; intros i num s Hi Hn Hb; [lia|].
  rewrite int_for_step. destruct (i <? num)%Z eqn:E.
  - apply Z.ltb_lt in E.
    rewrite load_waypoint_ok by lia.
    destruct (IH (i + 1)%Z num
                (set_waypoints_ (fun j =>
                   if (j =? i)%Z then
                     mkVec (double_parameter ps (waypoint_key i "_x") (-1.0))
                           (double_parameter ps (waypoint_key i "_y") (-1.0))
                           (double_parameter ps (waypoint_key i "_z") (-1.0))
                   else waypoints_ s j) s))
      as (w & Hrun & Hin & Hout); [lia | lia | lia |].
    rewrite Hrun. exists w. split.
    + destruct s. reflexivity.
    + split.
      * intros j Hj. destruct (Z.eq_dec j i) as [-> | Hne].
        -- rewrite Hout by lia. destruct s. cbn.
           rewrite Z.eqb_refl. reflexivity.
        -- apply Hin. lia.
      * intros j Hj. rewrite Hout by lia. destruct s. cbn.
        replace (j =? i)%Z with false
          by (symmetry; apply Z.eqb_neq; lia).
        reflexivity.
  - apply Z.ltb_ge in E. exists (waypoints_ s). split.
    + destruct s. reflexivity.
    + split; [intros j Hj; lia | reflexivity].
Qed.

Lemma waypoint_loop_overruns (ps : Parameters) (budget : nat) :
  forall (i num : Z) (s : KinoReplanFSM),
    (0 <= i <= 50)%Z -> (50 < num)%Z -> (Z.to_nat (50 - i) < budget)%nat ->
    int_for budget i num (load_waypoint ps) s = Crash BadWaypoint.
Proof.
  induction budget as [|budget IH]; intros i num s Hi Hn Hb; [lia|].
  rewrite int_for_step. replace (i <? num)%Z with true
    by (symmetry; apply Z.ltb_lt; lia).
  destruct (Z.eq_dec i 50) as [-> | Hne].
  - reflexivity.
  - rewrite load_waypoint_ok by lia. rewrite IH by lia. reflexivity.
Qed.

(** X20.  What the constructor leaves.  With a configured waypoint count
    of at most 50 the constructor completes on any storage: the node is in
    [INIT] with its flags cleared and the index at zero, and the tick
    counter is not touched; flight type, thresholds and count are the
    overrides or else -1; waypoint [i] below the count is read from
    ["fsm.waypoint<i>_x"], ["_y"], ["_z"] or else is (-1, -1, -1); the
    rows from the count on keep whatever the storage held.  In preset
    mode with at least one waypoint the cycle is in order.  With a count
    above 50 the loop writes past the 50 rows of [waypoints_]. *)
Theorem constructor_loads_parameters (ps : Parameters)
  (fresh : FastPlannerManager) (storage : KinoReplanFSM) :
  let num := int_parameter ps "fsm.waypoint_num" (-1)%Z in
  let loaded i :=
    mkVec (double_parameter ps (waypoint_key i "_x") (-1.0))
          (double_parameter ps (waypoint_key i "_y") (-1.0))
          (double_parameter ps (waypoint_key i "_z") (-1.0)) in
  ((num <= 50)%Z ->
   exists s,
     construct ps fresh storage = Ok (tt, s, []) /\
     exec_state_ s = INIT /\ trigger_ s = false /\
     have_target_ s = false /\ have_odom_ s = false /\
     current_wp_ s = 0%Z /\ fsm_num s = fsm_num storage /\
     planner_manager_ s = fresh /\
     target_type_ s = int_parameter ps "fsm.flight_type" (-1)%Z /\
     replan_thresh_ s = double_parameter ps "fsm.thresh_replan" (-1.0) /\
     no_replan_thresh_ s =
       double_parameter ps "fsm.thresh_no_replan" (-1.0) /\
     waypoint_num_ s = num /\
     (forall i, (0 <= i < num)%Z -> waypoints_ s i = loaded i) /\
     (forall i, ~ (0 <= i < num)%Z -> waypoints_ s i = waypoints_ storage i) /\
     (target_type_ s = PRESET_TARGET -> (1 <= num)%Z -> cycle_configured s)) /\
  ((50 < num)%Z -> construct ps fresh storage = Crash BadWaypoint).
Proof.
  cbv zeta. fields storage. unfold construct, init. cbn.
  set (num := int_parameter ps "fsm.waypoint_num" (-1)%Z).
  set (s0 := mkFSM _ _ _ _ _ _ _ _ _ _ _ _ _ _ _ _ _ _ _ _ _).
  split.
  - intros Hn.
    destruct (waypoint_loop ps (S (Z.to_nat num)) 0%Z num s0)
      as (w & Hrun & Hin & Hout); [lia | exact Hn | lia |].
    rewrite Hrun. subst s0. cbn.
    eexists. split; [reflexivity|]. cbn.
    do 11 (split; [reflexivity|]).
    split; [exact Hin|]. split; [exact Hout|].
    intros Hp H1. unfold cycle_configured. cbn. split; [exact Hp|]. lia.
  - intros Hn.
    rewrite (waypoint_loop_overruns ps (S (Z.to_nat num)) 0%Z num s0)
      by lia.
    reflexivity.
Qed.

End Construction.

Section Compositions.
Context {ext : Collaborators}.

Ltac settle :=
  try match goal with
  | H : false = true |- _ => discriminate H
  | H : true = false |- _ => discriminate H
  | H : fst (_, _) = _ |- _ => cbn in H; discriminate H
  | H : fst ?x = _, E : ?x = _ |- _ => rewrite E in H; cbn in H; discriminate H
  end.

(** X21.  A failed relocation makes the next tick call the planner,
    whatever the node was doing.  When a goal is held, its clearance is at
    most 0.3 and no candidate exceeds 0.3, a safety tick followed by a
    tick always completes, publishes two replan signals -- one each --
    and calls the planner once, starting from the planner's trajectory
    data sampled at the elapsed time and aiming at the unchanged goal.
    This holds from every named state, [INIT] and [WAIT_TARGET] included,
    and whether or not odometry was ever received. *)
Theorem failed_relocation_forces_planner_call (now : Time)
  (s : KinoReplanFSM) :
  named s -> have_target_ s = true ->
  clearance_query (planner_manager_ s) (end_pt_ s) <= 0.3 ->
  snd (best_of (clearance_query (planner_manager_ s))
         (candidates (end_pt_ s))) <= 0.3 ->
  let info := local_data_ (planner_manager_ s) in
  let t := replan_traj_t_cur now info in
  let sample curve := vec3_of (evaluateDeBoorT (curve info) t) in
  exists s' evs,
    bind checkCollisionCallback (fun _ => execFSMCallback now) s =
      Ok (tt, s', evs) /\
    replan_signals evs = 2%nat /\ planner_calls evs = 1%nat /\
    In (CallKinodynamicReplan (sample position_traj_)
          (sample velocity_traj_) (sample acceleration_traj_)
          (end_pt_ s) (end_vel_ s)) evs /\
    end_pt_ s' = end_pt_ s /\ have_odom_ s' = have_odom_ s /\
    exec_state_ s' =
      if fst (kinodynamicReplan (planner_manager_ s) (sample position_traj_)
                (sample velocity_traj_) (sample acceleration_traj_)
                (end_pt_ s) (end_vel_ s))
      then EXEC_TRAJ else GEN_NEW_TRAJ.
Proof.
  unfold named. fields s. cbn. intros He Ht Hc Hm. subst f_target.
  destruct (best_of (clearance_query f_pm) (candidates g_pt))
    as [goal m] eqn:Eb.
  cbn [snd] in Hm.
  unfold checkCollisionCallback. cbn.
  apply leb_le in Hc. rewrite Hc. cbn.
  rewrite relocation_search_best, Eb. cbn.
  apply gtb_le in Hm. rewrite Hm. cbn.
  destruct f_state; try (exfalso; apply He; reflexivity); run.
  all: settle.
  all: eexists; eexists; (split; [reflexivity|]); cbn.
  all: split; [reflexivity|]; split; [reflexivity|]; split; [tauto|]; auto.
Qed.


Ltac logged caller :=
  exists caller; do 2 eexists;
  split; [reflexivity|]; split; [reflexivity|]; cbn; tauto.

(** X23.  Every change of state is logged.  Whenever an activity leaves
    the node in another state than it found it, the console got a line
    ["[caller]: from <old> to <new>"] with the names of the two states
    and one of the tags [FSM], [TRIG], [SAFETY]. *)
Theorem every_state_change_is_logged (s s' : KinoReplanFSM)
  (evs : list Event) :
  step s evs s' -> exec_state_ s' <> exec_state_ s ->
  exists caller old new,
    nth_error state_str (int_of_state (exec_state_ s)) = Some old /\
    nth_error state_str (int_of_state (exec_state_ s')) = Some new /\
    (In (Cout ("[" ++ caller ++ "]: from " ++ old ++ " to " ++ new)) evs /\
     In caller ["FSM"; "TRIG"; "SAFETY"])%string.
Proof.
  intros Hs. destruct Hs as
    [now s s' evs H | s s' evs H | msg s s' evs H | msg s s' evs H | pm s].
  - fields s. revert H. destruct f_state; run.
    all: intros H; try discriminate H; inverted H; cbn.
    all: intros Hne; try (exfalso; apply Hne; reflexivity).
    all: logged "FSM"%string.
  - fields s. revert H.
    unfold checkCollisionCallback, changeFSMExecState, state_name.
    destruct f_state; cbn; repeat ((branch || branch_search); cbn).
    all: intros H; try discriminate H; inverted H; cbn.
    all: intros Hne; try (exfalso; apply Hne; reflexivity).
    all: first [logged "SAFETY"%string | logged "FSM"%string].
  - fields s. revert H.
    unfold waypointCallback, changeFSMExecState, state_name.
    destruct (poses msg) as [|first rest]; [discriminate|].
    destruct f_state; cbn; repeat (branch; cbn).
    all: intros H; try discriminate H; inverted H; cbn.
    all: intros Hne; try (exfalso; apply Hne; reflexivity).
    all: logged "TRIG"%string.
  - fields s. cbn in H. inverted H. cbn. intros Hne. exfalso. auto.
  - fields s. cbn. intros Hne. exfalso. auto.
Qed.

End Compositions.

(** * Concrete runs of the further properties *)

Lemma waiting_states_gate_witness :
  exec_state_ demo_fresh = INIT /\
  exists s' evs,
    execFSMCallback 0%Z demo_fresh = Ok (tt, s', evs) /\
    planner_calls evs = 0%nat.
Proof.
  split; [reflexivity|].
  destruct (waiting_states_gate (ext := scripted) 0%Z demo_fresh
              (or_introl eq_refl))
    as (s' & evs & Hrun & _ & _ & Hcalls & _).
  exists s', evs. split; [exact Hrun | exact Hcalls].
Defined.

Lemma exec_traj_entered_with_trajectory_witness :
  let node := demo_node GEN_NEW_TRAJ true true in
  let after := outcome (execFSMCallback 0%Z) node in
  step node (snd after) (fst after) /\
  exec_state_ (fst after) = EXEC_TRAJ /\
  published_trajectories (snd after) = 1%nat.
Proof.
  cbv zeta.
  assert (Hstep : step (demo_node GEN_NEW_TRAJ true true)
                    (snd (outcome (execFSMCallback 0%Z)
                            (demo_node GEN_NEW_TRAJ true true)))
                    (fst (outcome (execFSMCallback 0%Z)
                            (demo_node GEN_NEW_TRAJ true true))))
    by (apply (step_exec 0%Z); vm_compute; reflexivity).
  assert (Hin : exec_state_ (fst (outcome (execFSMCallback 0%Z)
                                    (demo_node GEN_NEW_TRAJ true true)))
                = EXEC_TRAJ) by (vm_compute; reflexivity).
  split; [exact Hstep|]. split; [exact Hin|].
  apply (exec_traj_entered_with_trajectory (ext := scripted) _ _ _ Hstep Hin).
  discriminate.
Defined.

Lemma tick_follows_diagram_witness :
  let node := demo_node EXEC_TRAJ true true in
  let after := outcome (execFSMCallback 0%Z) node in
  execFSMCallback 0%Z node = Ok (tt, fst after, snd after) /\
  end_pt_ (fst after) = end_pt_ node.
Proof.
  cbv zeta.
  assert (Hrun : execFSMCallback 0%Z (demo_node EXEC_TRAJ true true) =
                 Ok (tt,
                     fst (outcome (execFSMCallback 0%Z)
                            (demo_node EXEC_TRAJ true true)),
                     snd (outcome (execFSMCallback 0%Z)
                            (demo_node EXEC_TRAJ true true))))
    by (vm_compute; reflexivity).
  split; [exact Hrun|].
  exact (proj1 (proj2 (tick_follows_diagram (ext := scripted) _ _ _ _ Hrun))).
Defined.

Lemma goal_dropped_only_on_exhaustion_witness :
  let node := demo_node EXEC_TRAJ true true in
  let after := outcome (execFSMCallback 2995000000%Z) node in
  step node (snd after) (fst after) /\
  have_target_ node = true /\ have_target_ (fst after) = false /\
  exec_state_ (fst after) = WAIT_TARGET.
Proof.
  cbv zeta.
  assert (Hstep : step (demo_node EXEC_TRAJ true true)
                    (snd (outcome (execFSMCallback 2995000000%Z)
                            (demo_node EXEC_TRAJ true true)))
                    (fst (outcome (execFSMCallback 2995000000%Z)
                            (demo_node EXEC_TRAJ true true))))
    by (apply (step_exec 2995000000%Z); vm_compute; reflexivity).
  assert (Hdrop : have_target_ (fst (outcome (execFSMCallback 2995000000%Z)
                                       (demo_node EXEC_TRAJ true true)))
                  = false) by (vm_compute; reflexivity).
  split; [exact Hstep|]. split; [reflexivity|]. split; [exact Hdrop|].
  exact (proj1 (proj2 (goal_dropped_only_on_exhaustion (ext := scripted)
                         _ _ _ Hstep eq_refl Hdrop))).
Defined.

Lemma parameters_and_latches_kept_witness :
  let node := demo_node WAIT_TARGET false true in
  let after := outcome (waypointCallback (demo_goal 3)) node in
  step node (snd after) (fst after) /\ same_parameters node (fst after).
Proof.
  cbv zeta.
  assert (Hstep : step (demo_node WAIT_TARGET false true)
                    (snd (outcome (waypointCallback (demo_goal 3))
                            (demo_node WAIT_TARGET false true)))
                    (fst (outcome (waypointCallback (demo_goal 3))
                            (demo_node WAIT_TARGET false true))))
    by (apply (step_waypoint (demo_goal 3)); vm_compute; reflexivity).
  split; [exact Hstep|].
  exact (proj1 (parameters_and_latches_kept (ext := scripted) _ _ _ Hstep)).
Defined.

Lemma status_line_every_hundredth_tick_witness :
  named demo_fresh /\ (0 <= fsm_num demo_fresh < 100)%Z /\
  exists s' evs,
    run_ticks (repeat 0%Z 250) demo_fresh = Ok (tt, s', evs) /\
    fsm_num s' = 50%Z /\ status_lines evs = 2%nat.
Proof.
  assert (Hn : named demo_fresh) by (vm_compute; discriminate).
  assert (Hc : (0 <= fsm_num demo_fresh < 100)%Z) by (cbn; lia).
  split; [exact Hn|]. split; [exact Hc|].
  destruct (status_line_every_hundredth_tick (ext := scripted)
              (repeat 0%Z 250) demo_fresh Hn Hc)
    as (s' & evs & Hrun & _ & Hcount & Hlines).
  exists s', evs. split; [exact Hrun|]. split; [exact Hcount|].
  apply Nat2Z.inj. exact Hlines.
Defined.

Lemma trajectory_collision_check_witness :
  have_target_ (demo_node EXEC_TRAJ false true) = false /\
  checkCollisionCallback (demo_node EXEC_TRAJ false true) =
    Ok (tt, demo_node EXEC_TRAJ false true, []).
Proof.
  split; [reflexivity|].
  destruct (trajectory_collision_check (ext := scripted)
              (demo_node EXEC_TRAJ false true) (or_introl eq_refl))
    as (s' & evs & Hrun & _ & Hsafe).
  destruct (Hsafe (or_intror eq_refl)) as [-> ->]. exact Hrun.
Defined.

Lemma safety_monitor_confined_witness :
  let node := demo_node EXEC_TRAJ true true in
  let after := outcome checkCollisionCallback node in
  checkCollisionCallback node = Ok (tt, fst after, snd after) /\
  planner_calls (snd after) = 0%nat.
Proof.
  cbv zeta.
  assert (Hrun : checkCollisionCallback (demo_node EXEC_TRAJ true true) =
                 Ok (tt,
                     fst (outcome checkCollisionCallback
                            (demo_node EXEC_TRAJ true true)),
                     snd (outcome checkCollisionCallback
                            (demo_node EXEC_TRAJ true true))))
    by (vm_compute; reflexivity).
  split; [exact Hrun|].
  exact (proj1 (proj2 (safety_monitor_confined (ext := scripted) _ _ _ Hrun))).
Defined.

Lemma relocated_goal_is_clear_witness :
  let node := demo_node EXEC_TRAJ true true in
  let after := outcome checkCollisionCallback node in
  checkCollisionCallback node = Ok (tt, fst after, snd after) /\
  (end_pt_ (fst after) = end_pt_ node \/
   0.3 < clearance_query (planner_manager_ node) (end_pt_ (fst after))).
Proof.
  cbv zeta.
  assert (Hrun : checkCollisionCallback (demo_node EXEC_TRAJ true true) =
                 Ok (tt,
                     fst (outcome checkCollisionCallback
                            (demo_node EXEC_TRAJ true true)),
                     snd (outcome checkCollisionCallback
                            (demo_node EXEC_TRAJ true true))))
    by (vm_compute; reflexivity).
  split; [exact Hrun|].
  destruct (relocated_goal_is_clear (ext := scripted) _ _ _ Hrun)
    as [Hsame | (_ & Hclear & _)]; [left; exact Hsame | right; exact Hclear].
Defined.

Lemma relocation_settles_witness :
  named (demo_node EXEC_TRAJ true true) /\
  clearance_query (planner_manager_ (demo_node EXEC_TRAJ true true))
    (end_pt_ (demo_node EXEC_TRAJ true true)) <= 0.3 /\
  0.3 < snd (best_of
               (clearance_query
                  (planner_manager_ (demo_node EXEC_TRAJ true true)))
               (candidates (ext := scripted) (end_pt_ (demo_node EXEC_TRAJ true true)))) /\
  exists s1 evs1,
    checkCollisionCallback (demo_node EXEC_TRAJ true true) =
      Ok (tt, s1, evs1) /\
    checkCollisionCallback s1 = Ok (tt, s1, []).
Proof.
  assert (Hn : named (demo_node EXEC_TRAJ true true)) by (vm_compute; discriminate).
  assert (Hc : clearance_query
                 (planner_manager_ (demo_node EXEC_TRAJ true true))
                 (end_pt_ (demo_node EXEC_TRAJ true true)) <= 0.3)
    by (vm_compute; discriminate).
  assert (Hm : 0.3 < snd (best_of
                 (clearance_query
                    (planner_manager_ (demo_node EXEC_TRAJ true true)))
                 (candidates (ext := scripted) (end_pt_ (demo_node EXEC_TRAJ true true)))))
    by (vm_compute; reflexivity).
  split; [exact Hn|]. split; [exact Hc|]. split; [exact Hm|].
  destruct (relocation_settles (ext := scripted)
              (demo_node EXEC_TRAJ true true) Hn eq_refl Hc Hm)
    as (s1 & evs1 & Hrun & _ & Hagain).
  exists s1, evs1. split; [exact Hrun | exact Hagain].
Defined.

Lemma planner_called_once_per_planning_tick_witness :
  let node := demo_node REPLAN_TRAJ true false in
  let after := outcome (execFSMCallback 0%Z) node in
  execFSMCallback 0%Z node = Ok (tt, fst after, snd after) /\
  planner_calls (snd after) = 1%nat.
Proof.
  cbv zeta.
  assert (Hrun : execFSMCallback 0%Z (demo_node REPLAN_TRAJ true false) =
                 Ok (tt,
                     fst (outcome (execFSMCallback 0%Z)
                            (demo_node REPLAN_TRAJ true false)),
                     snd (outcome (execFSMCallback 0%Z)
                            (demo_node REPLAN_TRAJ true false))))
    by (vm_compute; reflexivity).
  split; [exact Hrun|].
  exact (proj1 (proj1 (planner_called_once_per_planning_tick
                         (ext := scripted) _ _ _ _ Hrun)
                  (or_intror eq_refl))).
Defined.

Lemma planning_boundary_conditions_witness :
  exec_state_ (demo_node GEN_NEW_TRAJ true true) = GEN_NEW_TRAJ /\
  exists s' evs,
    execFSMCallback 0%Z (demo_node GEN_NEW_TRAJ true true) =
      Ok (tt, s', evs) /\
    start_pt_ s' = odom_pos_ (demo_node GEN_NEW_TRAJ true true).
Proof.
  split; [reflexivity|].
  destruct (planning_boundary_conditions (ext := scripted) 0%Z
              (demo_node GEN_NEW_TRAJ true true) (or_introl eq_refl))
    as (s' & evs & Hrun & _ & Hgen & _).
  exists s', evs. split; [exact Hrun|]. exact (proj1 (Hgen eq_refl)).
Defined.

Lemma published_trajectory_round_trip_witness :
  Forall (fun row => List.length row = 3%nat)
    (@getControlPoint tabled (position_traj_ tabled_info)) /\
  map (fun p => [vx p; vy p; vz p])
    (pos_pts (bspline_of (ext := tabled) tabled_info)) =
  [[1; 2; 3]; [4; 5; 6]].
Proof.
  assert (Hrows : Forall (fun row => List.length row = 3%nat)
                    (@getControlPoint tabled (position_traj_ tabled_info)))
    by (repeat constructor).
  split; [exact Hrows|].
  destruct (published_trajectory_round_trip (ext := tabled) tabled_info)
    as (_ & _ & _ & _ & _ & Hpoints & _).
  exact (Hpoints Hrows).
Defined.

Lemma first_flight_depends_on_visualization_witness :
  exec_state_ demo_fresh = INIT /\
  target_type_ demo_fresh = MANUAL_TARGET /\
  (exists s' evs,
     first_flight true demo_odometry (demo_goal 3) [10%Z; 20%Z; 30%Z]
       demo_fresh = Ok (tt, s', evs) /\
     planner_calls evs = 1%nat /\ end_pt_ s' = mkVec 4 5 1.0) /\
  first_flight false demo_odometry (demo_goal 3) [10%Z; 20%Z; 30%Z]
    demo_fresh = Crash NullPointer.
Proof.
  assert (Hz : -0.1 <= 3) by (vm_compute; discriminate).
  split; [reflexivity|]. split; [reflexivity|].
  destruct (first_flight_depends_on_visualization (ext := scripted)
              demo_odometry (demo_goal 3) _ [] 10%Z 20%Z 30%Z demo_fresh
              eq_refl eq_refl eq_refl Hz)
    as ((s' & evs & Hrun & Hcalls & _ & Hgoal & _) & Hnull).
  split; [|exact Hnull].
  exists s', evs. split; [exact Hrun|]. split; [exact Hcalls | exact Hgoal].
Defined.

Lemma goal_in_flight_replans_towards_it_witness :
  exec_state_ (demo_node EXEC_TRAJ true true) = EXEC_TRAJ /\
  exists s' evs,
    bind (waypointCallback (demo_goal 3)) (fun _ => execFSMCallback 0%Z)
      (demo_node EXEC_TRAJ true true) = Ok (tt, s', evs) /\
    replan_signals evs = 1%nat /\ end_pt_ s' = mkVec 4 5 1.0.
Proof.
  assert (Hz : -0.1 <= 3) by (vm_compute; discriminate).
  split; [reflexivity|].
  destruct (goal_in_flight_replans_towards_it (ext := scripted)
              (demo_goal 3) _ [] 0%Z (demo_node EXEC_TRAJ true true)
              eq_refl eq_refl eq_refl Hz)
    as (s' & evs & Hrun & Hsig & _ & _ & Hgoal & _).
  exists s', evs. split; [exact Hrun|]. split; [exact Hsig | exact Hgoal].
Defined.



Lemma constructor_loads_parameters_witness :
  (int_parameter demo_parameters "fsm.waypoint_num" (-1) <= 50)%Z /\
  exists s,
    construct (ext := scripted) demo_parameters (demo_script true)
      demo_preset = Ok (tt, s, []) /\
    exec_state_ s = INIT /\ waypoint_num_ s = 2%Z /\ cycle_configured s.
Proof.
  assert (Hn : (int_parameter demo_parameters "fsm.waypoint_num" (-1) <= 50)%Z)
    by (vm_compute; discriminate).
  split; [exact Hn|].
  destruct (proj1 (constructor_loads_parameters (ext := scripted)
                     demo_parameters (demo_script true) demo_preset) Hn)
    as (s & Hrun & Hs & _ & _ & _ & _ & _ & _ & Ht & _ & _ & Hnum & _ & _
        & Hcycle).
  exists s. split; [exact Hrun|]. split; [exact Hs|].
  split; [exact Hnum|].
  apply Hcycle; [rewrite Ht; reflexivity | vm_compute; discriminate].
Defined.

Lemma failed_relocation_forces_planner_call_witness :
  named (demo_blocked INIT) /\ have_odom_ (demo_blocked INIT) = false /\
  exists s' evs,
    bind checkCollisionCallback (fun _ => execFSMCallback 0%Z)
      (demo_blocked INIT) = Ok (tt, s', evs) /\
    planner_calls evs = 1%nat /\ have_odom_ s' = false.
Proof.
  assert (Hn : named (demo_blocked INIT)) by (vm_compute; discriminate).
  assert (Hc : clearance_query (planner_manager_ (demo_blocked INIT))
                 (end_pt_ (demo_blocked INIT)) <= 0.3)
    by (vm_compute; discriminate).
  assert (Hm : snd (best_of
                 (clearance_query (planner_manager_ (demo_blocked INIT)))
                 (candidates (ext := scripted) (end_pt_ (demo_blocked INIT)))) <= 0.3)
    by (vm_compute; discriminate).
  split; [exact Hn|]. split; [reflexivity|].
  destruct (failed_relocation_forces_planner_call (ext := scripted) 0%Z
              (demo_blocked INIT) Hn eq_refl Hc Hm)
    as (s' & evs & Hrun & _ & Hcalls & _ & _ & Hodom & _).
  exists s', evs. split; [exact Hrun|]. split; [exact Hcalls | exact Hodom].
Defined.


Lemma every_state_change_is_logged_witness :
  let node := demo_node WAIT_TARGET true true in
  let after := outcome (execFSMCallback 0%Z) node in
  step node (snd after) (fst after) /\
  exec_state_ (fst after) <> exec_state_ node /\
  exists caller old new,
    In (Cout ("[" ++ caller ++ "]: from " ++ old ++ " to " ++ new)%string)
       (snd after).
Proof.
  cbv zeta.
  assert (Hstep : step (demo_node WAIT_TARGET true true)
                    (snd (outcome (execFSMCallback 0%Z)
                            (demo_node WAIT_TARGET true true)))
                    (fst (outcome (execFSMCallback 0%Z)
                            (demo_node WAIT_TARGET true true))))
    by (apply (step_exec 0%Z); vm_compute; reflexivity).
  assert (Hne : exec_state_ (fst (outcome (execFSMCallback 0%Z)
                                    (demo_node WAIT_TARGET true true)))
                <> exec_state_ (demo_node WAIT_TARGET true true))
    by (vm_compute; discriminate).
  split; [exact Hstep|]. split; [exact Hne|].
  destruct (every_state_change_is_logged (ext := scripted) _ _ _ Hstep Hne)
    as (caller & old & new & _ & _ & Hin & _).
  exists caller, old, new. exact Hin.
Defined.
